(** * ra-data-rest-hapi: the data provider of [src/index.js]

    A shallow embedding of the adapter that maps react-admin data requests
    to a rest-hapi REST API, and the properties of its request and response
    translation.

    JavaScript objects are association lists in property-enumeration order
    (the order is what [Object.keys] and [Object.assign] follow; keys that
    look like array indices, which JavaScript enumerates first, are not
    set apart, and no property below depends on the order).  Mutation of
    the caller's [params] is explicit state passing: every function that
    writes to [params] returns the updated [params] next to its result.
    The module is an ES module, hence strict-mode code. *)

From Stdlib Require Import String Ascii List ZArith Bool Lia.
From Stdlib Require Import DecimalString.
Import ListNotations.
Local Open Scope list_scope.
Local Open Scope string_scope.

(** ** JavaScript values *)

Module JS.

Unset Elimination Schemes.
(** The JSON fragment of JavaScript values.  [VNum] holds the integers
    that JavaScript prints in plain decimal (magnitude below 1e21);
    [VObj] lists the own properties in enumeration order. *)
Inductive value : Type :=
| VUndef
| VNull
| VBool (b : bool)
| VNum (z : Z)
| VStr (s : string)
| VArr (elems : list value)
| VObj (props : list (string * value)).
Set Elimination Schemes.

Definition obj : Type := list (string * value).

(** Induction over values that reaches inside arrays and objects. *)
Section ValueInd.
Variable P : value -> Prop.
Hypothesis Hundef : P VUndef.
Hypothesis Hnull : P VNull.
Hypothesis Hbool : forall b, P (VBool b).
Hypothesis Hnum : forall z, P (VNum z).
Hypothesis Hstr : forall s, P (VStr s).
Hypothesis Harr : forall l, Forall P l -> P (VArr l).
Hypothesis Hobj : forall o, Forall (fun kv => P (snd kv)) o -> P (VObj o).

Fixpoint value_ind (v : value) : P v :=
  match v with
  | VUndef => Hundef
  | VNull => Hnull
  | VBool b => Hbool b
  | VNum z => Hnum z
  | VStr s => Hstr s
  | VArr l =>
      Harr l ((fix go (l : list value) : Forall P l :=
                 match l with
                 | [] => Forall_nil _
                 | x :: r => Forall_cons _ (value_ind x) (go r)
                 end) l)
  | VObj o =>
      Hobj o ((fix go (o : obj) : Forall (fun kv => P (snd kv)) o :=
                 match o with
                 | [] => Forall_nil _
                 | kv :: r => Forall_cons _ (value_ind (snd kv)) (go r)
                 end) o)
  end.
End ValueInd.

(** [ToBoolean]: what [if (x)], [x ? a : b] and [x && y] test. *)
Definition truthy (v : value) : bool :=
  match v with
  | VUndef | VNull => false
  | VBool b => b
  | VNum z => negb (z =? 0)%Z
  | VStr s => negb (s =? "")
  | VArr _ | VObj _ => true
  end.

(** [x != null]: false exactly for [null] and [undefined]. *)
Definition not_nullish (v : value) : bool :=
  match v with
  | VUndef | VNull => false
  | _ => true
  end.

(** [o[k]] on an object, as a lookup: [None] when [k] is not an own
    property. *)
Fixpoint get (k : string) (o : obj) : option value :=
  match o with
  | [] => None
  | (k', v) :: r => if k' =? k then Some v else get k r
  end.

(** [o.k] as an expression: a missing property reads [undefined]. *)
Definition read (k : string) (o : obj) : value :=
  match get k o with
  | Some v => v
  | None => VUndef
  end.

(** [delete o[k]]. *)
Fixpoint del (k : string) (o : obj) : obj :=
  match o with
  | [] => []
  | (k', v) :: r => if k' =? k then del k r else (k', v) :: del k r
  end.

(** [o[k] = v]: an existing property keeps its place, a new one is
    enumerated last.  The name is cleared from the rest of the list, so
    that a property is listed once whatever list the object came as. *)
Fixpoint set (k : string) (v : value) (o : obj) : obj :=
  match o with
  | [] => [(k, v)]
  | (k', v') :: r =>
      if k' =? k then (k, v) :: del k r else (k', v') :: set k v r
  end.

(** [Object.assign(target, src)]: each property of [src], in order, is
    written to [target]. *)
Definition assign1 (target src : obj) : obj :=
  fold_left (fun acc kv => set (fst kv) (snd kv) acc) src target.

(** [Object.assign(target, ...sources)]. *)
Definition Object_assign (target : obj) (sources : list obj) : obj :=
  fold_left assign1 sources target.

(** [Array.prototype.join]. *)
Fixpoint join (sep : string) (l : list string) : string :=
  match l with
  | [] => ""
  | [x] => x
  | x :: r => x ++ sep ++ join sep r
  end.

(** String coercion of a template literal, [`${v}`].  An array prints its
    elements joined by commas, with [null] and [undefined] as empty
    strings. *)
Fixpoint toString (v : value) : string :=
  match v with
  | VUndef => "undefined"
  | VNull => "null"
  | VBool true => "true"
  | VBool false => "false"
  | VNum z => NilEmpty.string_of_int (Z.to_int z)
  | VStr s => s
  | VArr l =>
      join "," (map (fun x => match x with
                              | VUndef | VNull => ""
                              | _ => toString x
                              end) l)
  | VObj _ => "[object Object]"
  end.

End JS.
Import JS.

(** ** Collaborators from react-admin *)

(** Modelled from the spec: the request-type constants are imported from
    react-admin and are not in the repository; each is the string of its
    own name, the nine operation kinds of the data-request protocol. *)
Definition GET_LIST : string := "GET_LIST".
Definition GET_ONE : string := "GET_ONE".
Definition GET_MANY : string := "GET_MANY".
Definition GET_MANY_REFERENCE : string := "GET_MANY_REFERENCE".
Definition CREATE : string := "CREATE".
Definition UPDATE : string := "UPDATE".
Definition UPDATE_MANY : string := "UPDATE_MANY".
Definition DELETE : string := "DELETE".
Definition DELETE_MANY : string := "DELETE_MANY".

Definition recognizedTypes : list string :=
  [GET_LIST; GET_ONE; GET_MANY; GET_MANY_REFERENCE; CREATE; UPDATE;
   UPDATE_MANY; DELETE; DELETE_MANY].

(** Modelled from the spec: what [fetchUtils.flattenObject], which is
    react-admin's and not in the repository, descends into: a nested
    object, that is a plain object with at least one key.  Arrays, empty
    objects and scalars are leaves. *)
Definition isValidObject (v : value) : bool :=
  match v with
  | VObj (_ :: _) => true
  | _ => false
  end.

(** Modelled from the spec: [fetchUtils.flattenObject] is react-admin's
    and is not in the repository.  Nested filter objects are flattened
    into dotted-path keys, [{author: {name: 'x'}}] to [author.name = x];
    the parts of the keys of one object are merged in key order, a later
    one overriding an earlier one with the same path.  This is the helper
    below a key, [path] being the keys above [value]. *)
Fixpoint flattenObject_at (value : value) (path : list string) : obj :=
  match value with
  | VObj ((_ :: _) as o) =>
      Object_assign []
        (map (fun kv => flattenObject_at (snd kv) (path ++ [fst kv])%list) o)
  | _ => [(join "." path, value)]
  end.

(** Modelled from the spec: [fetchUtils.flattenObject] on a filter
    mapping.  A mapping without keys has nothing to flatten: the helper
    hands back the object it was given, not a new one, which
    [getQueryForParams] accounts for. *)
Definition flattenObject (filter : obj) : obj :=
  match filter with
  | [] => []
  | _ :: _ => flattenObject_at (VObj filter) []
  end.

(** ** Request parameters and HTTP requests *)

Record Pagination : Type := { page : value; perPage : value }.

(** [field] is a string; an absent field behaves as the empty string at
    both places the source tests it. *)
Record Sort : Type := { field : string; order : string }.

(** The params of a call, with every field the kinds read present.  (A
    call whose params lack a field that its kind reads throws a
    [TypeError] at the first read; such calls are not part of this
    development.) *)
Record Params : Type := {
  pagination : Pagination;
  sort : Sort;
  filter : obj;
  id : value;
  ids : list value;
  target : string;
  data : obj
}.

Definition with_filter (params : Params) (f : obj) : Params :=
  {| pagination := pagination params; sort := sort params; filter := f;
     id := id params; ids := ids params; target := target params;
     data := data params |}.

Definition with_data (params : Params) (d : obj) : Params :=
  {| pagination := pagination params; sort := sort params;
     filter := filter params; id := id params; ids := ids params;
     target := target params; data := d |}.

Record Options : Type := { method : option string; body : option string }.

Record Request : Type := { url : string; options : Options }.

(** What a [throw] or a rejected promise carries. *)
Inductive error : Type :=
| TypeError
| Error (message : string)
| Reason (r : value).

(** ** Query builder *)

(** [(order === 'DESC' ? '-' : '')] *)
Definition sortPrefix (order : string) : string :=
  if order =? "DESC" then "-" else "".

(** Lines 30-41 of [getQueryForParams]: the two [if] blocks, which write
    to [params.filter] itself.  This is the caller's filter as they leave
    it. *)
Definition rewriteFilter (params : Params) : obj :=
  let field := field (sort params) in
  let order := order (sort params) in
  let filter1 :=
    if negb (field =? "")
    then set "$sort" (VStr (sortPrefix order ++ field)) (filter params)
    else filter params in
  if not_nullish (read "q" filter1)
  then del "q" (set "$term" (read "q" filter1) filter1)
  else filter1.

(** Whether the object [flattenObject(params.filter)] gives at line 43 is
    [params.filter] itself: so it is when the filter has no key by then,
    and a new object otherwise. *)
Definition queryIsFilter (params : Params) : bool :=
  negb (isValidObject (VObj (rewriteFilter params))).

(** [getQueryForParams], lines 28-52: the query, and [params] as the call
    leaves it.  The two [if] blocks write to [params.filter]; and when
    the query object is [params.filter] itself, [Object.assign] at line
    42 writes the pagination into the caller's filter too. *)
Definition getQueryForParams (params : Params) : obj * Params :=
  let page := page (pagination params) in
  let perPage := perPage (pagination params) in
  let field := field (sort params) in
  let order := order (sort params) in
  let filter' := rewriteFilter params in
  let query :=
    Object_assign (flattenObject filter')
      [ [("$limit", perPage); ("$page", page)];
        if negb (field =? "")
        then [("$sort",
               VStr (sortPrefix order
                     ++ (if field =? "id" then "_id" else field)))]
        else [] ] in
  (query, with_filter params (if queryIsFilter params then query else filter')).

(** The local [clean] of [cleanData]: a copy of [params.data] without the
    housekeeping keys. *)
Definition clean (params : Params) : obj :=
  del "isDeleted"
    (del "deletedAt"
       (del "updatedAt"
          (del "createdAt"
             (del "id" (assign1 [] (data params)))))).

Definition housekeeping : list string :=
  ["id"; "createdAt"; "updatedAt"; "deletedAt"; "isDeleted"].

(** ** Responses and results *)

Record Response : Type := { json : value }.

Module Result.
Record t : Type := { data : value; total : option value }.
End Result.

(** [v.k] for the keys read from a response body ([docs], [items],
    [total], [_id]), which no built-in prototype defines: reading from
    [null] or [undefined] throws, from any other non-object gives
    [undefined]. *)
Definition getProp (k : string) (v : value) : error + value :=
  match v with
  | VUndef | VNull => inl TypeError
  | VObj o => inr (read k o)
  | _ => inr VUndef
  end.

(** [v.k = x] in a module (strict mode): writing to a primitive throws.
    A named property written to an array is not part of its elements and
    is left out. *)
Definition setProp (k : string) (x : value) (v : value) : error + value :=
  match v with
  | VObj o => inr (VObj (set k x o))
  | VArr l => inr (VArr l)
  | _ => inl TypeError
  end.

(** [delete v.k]. *)
Definition delProp (k : string) (v : value) : value :=
  match v with
  | VObj o => VObj (del k o)
  | _ => v
  end.

(** The callback of line 126, [d => (d.id = d._id) && delete d._id && d]:
    the assignment is the value of [d._id]; when that is falsy the [&&]
    chain stops and yields it. *)
Definition renameId (d : value) : error + value :=
  match getProp "_id" d with
  | inl e => inl e
  | inr _id =>
      match setProp "id" _id d with
      | inl e => inl e
      | inr d' => if truthy _id then inr (delProp "_id" d') else inr _id
      end
  end.

(** [Array.prototype.map] with a callback that may throw. *)
Fixpoint mapE (f : value -> error + value) (l : list value)
  : error + list value :=
  match l with
  | [] => inr []
  | x :: r =>
      match f x with
      | inl e => inl e
      | inr y =>
          match mapE f r with
          | inl e => inl e
          | inr ys => inr (y :: ys)
          end
      end
  end.

Definition isListType (type : string) : bool :=
  (type =? GET_LIST) || (type =? GET_MANY) || (type =? GET_MANY_REFERENCE).

(** [convertHTTPResponse], lines 119-138: the result, or the error
    thrown, and [params] as the call leaves it ([CREATE] writes to
    [params.data]). *)
Definition convertHTTPResponse (response : Response)
    (type resource : string) (params : Params)
  : (error + Result.t) * Params :=
  let json := json response in
  if isListType type then
    match getProp "docs" json with
    | inr (VArr docs) =>
        match mapE renameId docs with
        | inl e => (inl e, params)
        | inr data =>
            match getProp "items" json with
            | inl e => (inl e, params)
            | inr items =>
                match getProp "total" items with
                | inl e => (inl e, params)
                | inr total =>
                    (inr {| Result.data := VArr data;
                            Result.total := Some total |}, params)
                end
            end
        end
    | _ => (inl TypeError, params)
    end
  else if type =? CREATE then
    let data' := del "_id" (set "id" (read "_id" (data params)) (data params)) in
    (inr {| Result.data := VObj data'; Result.total := None |},
     with_data params data')
  else
    match getProp "_id" json with
    | inl e => (inl e, params)
    | inr _id =>
        match setProp "id" _id json with
        | inl e => (inl e, params)
        | inr json' =>
            (inr {| Result.data := delProp "_id" json';
                    Result.total := None |}, params)
        end
    end.

(** ** Promises *)

(** A promise as it settles: fulfilled with a value or rejected with an
    error, at a [tick] of abstract time. *)
Inductive promise (A : Type) : Type :=
| Fulfilled (tick : nat) (a : A)
| Rejected (tick : nat) (e : error).
Arguments Fulfilled {A} tick a.
Arguments Rejected {A} tick e.

(** The rejection [Promise.all] reports: the earliest one, the first in
    the array among those of the same tick. *)
Fixpoint firstRejection {A : Type} (ps : list (promise A))
  : option (nat * error) :=
  match ps with
  | [] => None
  | Fulfilled _ _ :: r => firstRejection r
  | Rejected t e :: r =>
      match firstRejection r with
      | Some (t', e') => if Nat.ltb t' t then Some (t', e') else Some (t, e)
      | None => Some (t, e)
      end
  end.

Fixpoint fulfilledValues {A : Type} (ps : list (promise A)) : list A :=
  match ps with
  | [] => []
  | Fulfilled _ a :: r => a :: fulfilledValues r
  | Rejected _ _ :: r => fulfilledValues r
  end.

Definition settleTick {A : Type} (p : promise A) : nat :=
  match p with
  | Fulfilled t _ => t
  | Rejected t _ => t
  end.

(** [Promise.all]: rejected as soon as one promise is, otherwise fulfilled
    with the values in the order of the array once the last one is. *)
Definition Promise_all {A : Type} (ps : list (promise A)) : promise (list A) :=
  match firstRejection ps with
  | Some (t, e) => Rejected t e
  | None => Fulfilled (fold_right Nat.max 0 (map settleTick ps))
              (fulfilledValues ps)
  end.

(** [p.then(f)]; an error thrown by [f] rejects the new promise. *)
Definition then_ {A B : Type} (p : promise A) (f : A -> error + B)
  : promise B :=
  match p with
  | Fulfilled t a =>
      match f a with
      | inr b => Fulfilled t b
      | inl e => Rejected t e
      end
  | Rejected t e => Rejected t e
  end.

(** What a call of the data provider does: it throws, or returns a
    promise. *)
Inductive outcome : Type :=
| Threw (e : error)
| Returned (p : promise Result.t).

(** ** The adapter *)

Section Adapter.

(** The base URL the provider is built with. *)
Variable apiUrl : string.
(** [stringify] of the query-string package. *)
Variable stringify : obj -> string.
(** [JSON.stringify]. *)
Variable JSON_stringify : value -> string.

(** [cleanData], lines 54-62. *)
Definition cleanData (params : Params) : string :=
  JSON_stringify (VObj (clean params)).

(** The local [query] of the [GET_MANY_REFERENCE] case after
    [query[params.target] = params.id], line 84; the write lands in
    [params.filter] as well when the query object is the filter itself. *)
Definition referenceQuery (params : Params) : obj * Params :=
  let (query, params') := getQueryForParams params in
  let query' := set (target params') (id params') query in
  (query', if queryIsFilter params then with_filter params' query' else params').

(** [convertDataRequestToHTTP], lines 70-110: the request, or the error
    thrown, and [params] as the call leaves it. *)
Definition convertDataRequestToHTTP (type resource : string) (params : Params)
  : (error + Request) * Params :=
  let ret url method body params' :=
    (inr {| url := url; options := {| method := method; body := body |} |},
     params') in
  if type =? GET_LIST then
    let (query, params') := getQueryForParams params in
    ret (apiUrl ++ "/" ++ resource ++ "?" ++ stringify query) None None params'
  else if type =? GET_ONE then
    ret (apiUrl ++ "/" ++ resource ++ "/" ++ toString (id params))
      None None params
  else if type =? GET_MANY_REFERENCE then
    let (query, params') := referenceQuery params in
    ret (apiUrl ++ "/" ++ resource ++ "?" ++ stringify query) None None params'
  else if type =? UPDATE then
    ret (apiUrl ++ "/" ++ resource ++ "/" ++ toString (id params))
      (Some "PUT") (Some (cleanData params)) params
  else if type =? CREATE then
    ret (apiUrl ++ "/" ++ resource)
      (Some "POST") (Some (cleanData params)) params
  else if type =? DELETE then
    ret (apiUrl ++ "/" ++ resource ++ "/" ++ toString (id params))
      (Some "DELETE") None params
  else if type =? GET_MANY then
    ret (apiUrl ++ "/" ++ resource ++ "?"
         ++ join "&" (map (fun _id => stringify [("_id", _id)]) (ids params)))
      None None params
  else
    (inl (Error ("Unsupported fetch action type " ++ type)), params).

(** *** The default export *)

(** The state of the network and the server, as the transport sees it. *)
Variable World : Type.
(** The injected HTTP transport: one call, and the promise it returns. *)
Variable httpClient : World -> string -> Options -> World * promise Response.

(** A run of the provider: its outcome, the transport calls made, in
    order, each with the promise it got, and the world and [params] it
    leaves. *)
Record Run : Type := {
  outcome_of : outcome;
  calls : list (Request * promise Response);
  world : World;
  params_after : Params
}.

(** [requests.map(r => httpClient(r.url, r.options))]: the calls are made
    one after the other, in the order of the array. *)
Fixpoint issue (requests : list Request) (w : World)
  : World * list (promise Response) :=
  match requests with
  | [] => (w, [])
  | r :: rest =>
      let (w1, p) := httpClient w (url r) (options r) in
      let (w2, ps) := issue rest w1 in
      (w2, p :: ps)
  end.

(** The request [UPDATE_MANY] makes for one id, lines 151-154. *)
Definition updateManyRequest (resource : string) (params : Params)
    (id : value) : Request :=
  {| url := apiUrl ++ "/" ++ resource ++ "/" ++ toString id;
     options := {| method := Some "PATCH";
                   body := Some (JSON_stringify (VObj (data params))) |} |}.

(** The request [DELETE_MANY] makes for one id, lines 164-166. *)
Definition deleteManyRequest (resource : string) (id : value) : Request :=
  {| url := apiUrl ++ "/" ++ resource ++ "/" ++ toString id;
     options := {| method := Some "DELETE"; body := None |} |}.

(** [responses => ({ data: responses.map(response => response.json) })] *)
Definition collect (responses : list Response) : error + Result.t :=
  inr {| Result.data := VArr (map json responses); Result.total := None |}.

Definition fanOut (requests : list Request) (params : Params) (w : World)
  : Run :=
  let (w', ps) := issue requests w in
  {| outcome_of := Returned (then_ (Promise_all ps) collect);
     calls := combine requests ps;
     world := w';
     params_after := params |}.

(** The function the module exports, lines 146-180. *)
Definition dataProvider (type resource : string) (params : Params)
    (w : World) : Run :=
  if type =? UPDATE_MANY then
    fanOut (map (updateManyRequest resource params) (ids params)) params w
  else if type =? DELETE_MANY then
    fanOut (map (deleteManyRequest resource) (ids params)) params w
  else
    match convertDataRequestToHTTP type resource params with
    | (inl e, params1) =>
        {| outcome_of := Threw e; calls := []; world := w;
           params_after := params1 |}
    | (inr request, params1) =>
        let (w', p) := httpClient w (url request) (options request) in
        match p with
        | Fulfilled t response =>
            let (r, params2) :=
              convertHTTPResponse response type resource params1 in
            {| outcome_of :=
                 Returned (match r with
                           | inr result => Fulfilled t result
                           | inl e => Rejected t e
                           end);
               calls := [(request, p)]; world := w';
               params_after := params2 |}
        | Rejected t e =>
            {| outcome_of := Returned (Rejected t e);
               calls := [(request, p)]; world := w';
               params_after := params1 |}
        end
    end.

End Adapter.

Arguments outcome_of {World} _.
Arguments calls {World} _.
Arguments world {World} _.
Arguments params_after {World} _.

(** ** Stand-ins for the collaborators, to run the provider *)

Module Demo.

(** A plain query-string encoder: [key=value] pairs joined by [&], without
    percent-encoding. *)
Definition stringify (query : obj) : string :=
  join "&" (map (fun kv => fst kv ++ "=" ++ toString (snd kv)) query).

Definition quote : string := String (ascii_of_nat 34) EmptyString.

(** A plain JSON printer: no escapes inside strings; [undefined] prints as
    [null]. *)
Fixpoint JSON_stringify (v : value) : string :=
  match v with
  | VUndef | VNull => "null"
  | VObj o =>
      "{" ++ join "," (map (fun kv => quote ++ fst kv ++ quote ++ ":"
                                       ++ JSON_stringify (snd kv)) o) ++ "}"
  | VArr l => "[" ++ join "," (map JSON_stringify l) ++ "]"
  | VStr s => quote ++ s ++ quote
  | _ => toString v
  end.

(** A scripted transport: the world is the list of replies still to be
    given; each call takes the next one. *)
Definition httpClient (w : list (promise Response)) (url : string)
    (options : Options) : list (promise Response) * promise Response :=
  match w with
  | [] => ([], Rejected 0 (Reason (VStr "no reply scripted")))
  | p :: rest => (rest, p)
  end.

Definition provider :=
  dataProvider "base" stringify JSON_stringify (list (promise Response))
    httpClient.

Definition noParams : Params :=
  {| pagination := {| page := VNum 1; perPage := VNum 24 |};
     sort := {| field := ""; order := "ASC" |};
     filter := [];
     id := VUndef; ids := []; target := ""; data := [] |}.

(** A list request sorted by title, descending. *)
Definition listParams : Params :=
  {| pagination := {| page := VNum 1; perPage := VNum 24 |};
     sort := {| field := "title"; order := "DESC" |};
     filter := [];
     id := VUndef; ids := []; target := ""; data := [] |}.

(** A list request sorted by [id], ascending. *)
Definition idSortParams : Params :=
  {| pagination := {| page := VNum 1; perPage := VNum 24 |};
     sort := {| field := "id"; order := "ASC" |};
     filter := [];
     id := VUndef; ids := []; target := ""; data := [] |}.

(** A list request with the free-text filter [q]. *)
Definition searchParams (q : value) : Params :=
  with_filter noParams [("q", q)].

(** The comments that refer to post 7 through the field [target]. *)
Definition referenceParams (target : string) : Params :=
  {| pagination := {| page := VNum 1; perPage := VNum 10 |};
     sort := {| field := ""; order := "ASC" |};
     filter := [];
     id := VNum 7; ids := []; target := target; data := [] |}.

(** A bulk request for the records 1 and 2. *)
Definition twoIds : Params :=
  {| pagination := {| page := VNum 1; perPage := VNum 24 |};
     sort := {| field := ""; order := "ASC" |};
     filter := [];
     id := VUndef; ids := [VStr "1"; VStr "2"]; target := "";
     data := [("id", VStr "1"); ("title", VStr "A")] |}.

(** A create request whose data carries [_id]. *)
Definition createParams : Params :=
  with_data noParams [("_id", VStr "abc"); ("name", VStr "x")].

Definition record1 : Response :=
  {| json := VObj [("_id", VStr "1"); ("title", VStr "A")] |}.

(** A list request filtered by author name, with a nested filter. *)
Definition filteredParams : Params :=
  {| pagination := {| page := VNum 2; perPage := VNum 10 |};
     sort := {| field := ""; order := "ASC" |};
     filter := [("name", VStr "john");
                ("author", VObj [("name", VStr "x")]);
                ("$sort", VStr "-views")];
     id := VUndef; ids := []; target := ""; data := [] |}.

(** An update of record 1 whose data carries housekeeping fields. *)
Definition updateParams : Params :=
  {| pagination := {| page := VNum 1; perPage := VNum 24 |};
     sort := {| field := ""; order := "ASC" |};
     filter := [];
     id := VStr "1"; ids := []; target := "";
     data := [("id", VStr "1"); ("createdAt", VStr "t");
              ("_id", VStr "1"); ("name", VStr "x")] |}.

(** The list body of the server: one record, total 1. *)
Definition listBody : obj :=
  [("docs", VArr [VObj [("_id", VStr "1"); ("title", VStr "A")]]);
   ("items", VObj [("total", VNum 1)])].

End Demo.

(** ** Vocabulary of the properties *)

(** How many properties of [o] are named [k]. *)
Definition occurrences (k : string) (o : obj) : nat :=
  length (List.filter (fun kv => fst kv =? k) o).

(** Whether a key holds the path separator. *)
Fixpoint hasDot (s : string) : bool :=
  match s with
  | EmptyString => false
  | String c r => Ascii.eqb c "."%char || hasDot r
  end.

(** The name the sort field is sent under. *)
Definition sortName (field : string) : string :=
  if field =? "id" then "_id" else field.

(** A promise that settled as rejected, as fulfilled. *)
Definition isRejected {A : Type} (p : promise A) : Prop :=
  exists t e, p = Rejected t e.

Definition isFulfilled {A : Type} (p : promise A) : Prop :=
  exists t a, p = Fulfilled t a.

(** The request a bulk operation of kind [type] makes for [id]. *)
Definition bulkRequest (apiUrl : string) (JSON_stringify : value -> string)
    (type resource : string) (params : Params) (id : value) : Request :=
  {| url := apiUrl ++ "/" ++ resource ++ "/" ++ toString id;
     options :=
       {| method := Some (if type =? UPDATE_MANY then "PATCH" else "DELETE");
          body := if type =? UPDATE_MANY
                  then Some (JSON_stringify (VObj (data params)))
                  else None |} |}.

(** A record as the caller should see it: the identifier under [id], no
    [_id]. *)
Definition exposesId (o : obj) : Prop :=
  get "id" o <> None /\ get "_id" o = None.

(** [_id] moved to [id], as the translator does it on a record. *)
Definition renamed (o : obj) : obj :=
  del "_id" (set "id" (read "_id" o) o).

(** What a translated result holds, by kind: a list whose records are
    renamed, or a single renamed record. *)
Definition returned_ok (type : string) (r : Result.t) : Prop :=
  if isListType type
  then exists l, Result.data r = VArr l
                 /\ forall o, In (VObj o) l -> exposesId o
  else forall o, Result.data r = VObj o -> exposesId o.

(** A request body is either absent or the cleaned copy of
    [params.data], serialized. *)
Definition sent_ok (JSON_stringify : value -> string) (params : Params)
    (body : option string) : Prop :=
  body = None
  \/ body = Some (JSON_stringify (VObj (clean params)))
     /\ forall k, In k housekeeping -> get k (clean params) = None.

(** The seven kinds that are translated to one request. *)
Definition singleTypes : list string :=
  [GET_LIST; GET_ONE; GET_MANY_REFERENCE; UPDATE; CREATE; DELETE; GET_MANY].

(** Whether [k] is one of the keys [cleanData] deletes. *)
Definition isHousekeeping (k : string) : bool :=
  existsb (String.eqb k) housekeeping.

(** The keys the two [if] blocks of [getQueryForParams] write or delete
    in the filter. *)
Definition rewrittenKeys : list string := ["$sort"; "$term"; "q"].

(** A value the response translator can write [id] to: an object or an
    array. *)
Definition isRecordLike (v : value) : bool :=
  match v with
  | VObj _ | VArr _ => true
  | _ => false
  end.

(** The list bodies the response translator accepts: [docs] is an array
    of objects or arrays, and [items] is neither [null] nor [undefined]. *)
Definition listBodyAccepted (json : value) : bool :=
  match getProp "docs" json with
  | inr (VArr docs) =>
      forallb isRecordLike docs
      && match getProp "items" json with
         | inr items => not_nullish items
         | inl _ => false
         end
  | _ => false
  end.

(** [log] is what the transport was given and gave back from the world
    [w] on: each call is made in the world the call before it left, with
    the url and options of the logged request, and returns the logged
    promise; [w'] is the world the last call leaves. *)
Fixpoint transportTrace {World : Type}
    (httpClient : World -> string -> Options -> World * promise Response)
    (w : World) (log : list (Request * promise Response)) (w' : World)
  : Prop :=
  match log with
  | [] => w' = w
  | (request, reply) :: rest =>
      exists w1,
        httpClient w (url request) (options request) = (w1, reply)
        /\ transportTrace httpClient w1 rest w'
  end.



(** * Properties *)

(** ** Objects: lookup after write and delete *)

Lemma get_del_same k o : get k (del k o) = None.
Proof.
  induction o as [|[k' v] r IH]; simpl; auto.
  destruct (k' =? k) eqn:E; simpl; auto. now rewrite E.
Qed.

Lemma get_del_other k k' o : k <> k' -> get k' (del k o) = get k' o.
Proof.
  intros Hne. induction o as [|[k0 v] r IH]; simpl; auto.
  destruct (k0 =? k) eqn:E; simpl.
  - apply String.eqb_eq in E. subst k0.
    destruct (k =? k') eqn:E'; auto.
    apply String.eqb_eq in E'. contradiction.
  - now rewrite IH.
Qed.

Lemma get_set_same k v o : get k (set k v o) = Some v.
Proof.
  induction o as [|[k' v'] r IH]; simpl.
  - now rewrite String.eqb_refl.
  - destruct (k' =? k) eqn:E; simpl.
    + now rewrite String.eqb_refl.
    + now rewrite E.
Qed.

Lemma get_set_other k k' v o : k <> k' -> get k' (set k v o) = get k' o.
Proof.
  intros Hne. induction o as [|[k0 v0] r IH]; simpl.
  - destruct (k =? k') eqn:E; auto.
    apply String.eqb_eq in E. contradiction.
  - destruct (k0 =? k) eqn:E; simpl.
    + apply String.eqb_eq in E. subst k0.
      destruct (k =? k') eqn:E'.
      * apply String.eqb_eq in E'. contradiction.
      * now apply get_del_other.
    + now rewrite IH.
Qed.

Lemma occurrences_del_same k o : occurrences k (del k o) = 0.
Proof.
  unfold occurrences.
  induction o as [|[k' v] r IH]; simpl; auto.
  destruct (k' =? k) eqn:E; simpl; auto. now rewrite E.
Qed.

Lemma occurrences_del_other k k' o :
  k <> k' -> occurrences k' (del k o) = occurrences k' o.
Proof.
  intros Hne. unfold occurrences.
  induction o as [|[k0 v] r IH]; simpl; auto.
  destruct (k0 =? k) eqn:E; simpl.
  - apply String.eqb_eq in E. subst k0.
    destruct (k =? k') eqn:E'; auto.
    apply String.eqb_eq in E'. contradiction.
  - destruct (k0 =? k'); simpl; now rewrite IH.
Qed.

Lemma occurrences_set_same k v o : occurrences k (set k v o) = 1.
Proof.
  induction o as [|[k' v'] r IH]; unfold occurrences in *; simpl.
  - now rewrite String.eqb_refl.
  - destruct (k' =? k) eqn:E; simpl.
    + rewrite String.eqb_refl. simpl. f_equal.
      apply occurrences_del_same.
    + now rewrite E.
Qed.

Lemma occurrences_set_other k k' v o :
  k <> k' -> occurrences k' (set k v o) = occurrences k' o.
Proof.
  intros Hne.
  assert (Hkk : (k =? k') = false) by now apply String.eqb_neq.
  induction o as [|[k0 v0] r IH]; unfold occurrences in *; simpl.
  - now rewrite Hkk.
  - destruct (k0 =? k) eqn:E; simpl.
    + apply String.eqb_eq in E. subst k0. rewrite Hkk.
      now apply occurrences_del_other.
    + destruct (k0 =? k'); simpl; now rewrite IH.
Qed.

Lemma occurrences_zero_get k o : occurrences k o = 0 -> get k o = None.
Proof.
  unfold occurrences.
  induction o as [|[k' v] r IH]; simpl; auto.
  destruct (k' =? k); simpl; auto. discriminate.
Qed.

Lemma get_none_occurrences k o : get k o = None -> occurrences k o = 0.
Proof.
  unfold occurrences.
  induction o as [|[k' v] r IH]; simpl; auto.
  destruct (k' =? k); simpl; auto. discriminate.
Qed.

(** Writing the properties of [src] that are not named [k] leaves [k]
    alone. *)
Lemma get_assign1_absent k target src :
  get k src = None -> get k (assign1 target src) = get k target.
Proof.
  unfold assign1. revert target.
  induction src as [|[k' v] r IH]; intros target H; simpl in *; auto.
  destruct (k' =? k) eqn:E; [discriminate|].
  rewrite IH by assumption.
  apply get_set_other. now apply String.eqb_neq.
Qed.

Lemma get_Object_assign_absent k target sources :
  Forall (fun src => get k src = None) sources ->
  get k (Object_assign target sources) = get k target.
Proof.
  unfold Object_assign. revert target.
  induction sources as [|s r IH]; intros target H; simpl; auto.
  inversion H; subst.
  rewrite IH by assumption. now apply get_assign1_absent.
Qed.

(** ** Flattening: what becomes of a top-level key *)

Lemma hasDot_app a b : hasDot (a ++ b) = hasDot a || hasDot b.
Proof.
  induction a as [|c a IH]; simpl; auto.
  rewrite IH. now rewrite orb_assoc.
Qed.

(** A path of two keys or more joins to a key with a separator in it. *)
Lemma hasDot_join a b r : hasDot (join "." (a :: b :: r)) = true.
Proof.
  change (join "." (a :: b :: r)) with (a ++ "." ++ join "." (b :: r)).
  rewrite hasDot_app. simpl. apply orb_true_r.
Qed.

Lemma get_singleton k k' (v : value) :
  get k [(k', v)] <> None -> k = k'.
Proof.
  simpl. destruct (k' =? k) eqn:E.
  - intros _. symmetry. now apply String.eqb_eq.
  - intro H. now contradiction H.
Qed.

Lemma get_none_dec k (o : obj) : {get k o = None} + {get k o <> None}.
Proof.
  destruct (get k o); [right; discriminate | left; reflexivity].
Qed.

Lemma get_Object_assign_source k sources :
  get k (Object_assign [] sources) <> None ->
  Exists (fun src => get k src <> None) sources.
Proof.
  intro H.
  destruct (Forall_Exists_dec (fun src => get k src = None)
              (get_none_dec k) sources) as [F|E].
  - rewrite get_Object_assign_absent in H by assumption.
    now contradiction H.
  - assumption.
Qed.

(** Every key of a flattened value is the path down to a leaf: the path
    it was reached by, extended by the keys below it. *)
Lemma flattenObject_at_keys v :
  forall path k,
    get k (flattenObject_at v path) <> None ->
    exists suffix,
      k = join "." (path ++ suffix)%list
      /\ (suffix = [] -> isValidObject v = false).
Proof.
  induction v as [| |b|z|s|l _|o IH] using value_ind; intros path k H;
    try (apply get_singleton in H; exists []; rewrite app_nil_r; now split).
  destruct o as [|kv o'].
  - apply get_singleton in H. exists []. rewrite app_nil_r. now split.
  - cbn [flattenObject_at] in H.
    apply get_Object_assign_source in H.
    apply Exists_exists in H. destruct H as [part [Hin Hget]].
    apply in_map_iff in Hin. destruct Hin as [kv' [Hpart Hin']].
    subst part.
    rewrite Forall_forall in IH.
    destruct (IH kv' Hin' _ _ Hget) as [suffix [Hk _]].
    exists (fst kv' :: suffix). split.
    + now rewrite <- app_assoc in Hk.
    + discriminate.
Qed.

Section TopLevelKey.

(** A key without a separator in it. *)
Variable K : string.
Hypothesis K_dotless : hasDot K = false.

Lemma flatten_other_key k0 x :
  k0 <> K -> get K (flattenObject_at x [k0]) = None.
Proof.
  intro Hne.
  destruct (get K (flattenObject_at x [k0])) eqn:G; auto.
  assert (H : get K (flattenObject_at x [k0]) <> None) by (rewrite G; discriminate).
  apply flattenObject_at_keys in H. destruct H as [[|s r] [Hk _]].
  - simpl in Hk. congruence.
  - simpl app in Hk. rewrite Hk in K_dotless.
    rewrite hasDot_join in K_dotless. discriminate.
Qed.

Lemma flatten_nested_key x :
  isValidObject x = true -> get K (flattenObject_at x [K]) = None.
Proof.
  intro Hv.
  destruct (get K (flattenObject_at x [K])) eqn:G; auto.
  assert (H : get K (flattenObject_at x [K]) <> None) by (rewrite G; discriminate).
  apply flattenObject_at_keys in H. destruct H as [[|s r] [Hk Hleaf]].
  - rewrite Hleaf in Hv by reflexivity. discriminate.
  - simpl app in Hk. rewrite Hk in K_dotless.
    rewrite hasDot_join in K_dotless. discriminate.
Qed.

Lemma flatten_leaf x :
  isValidObject x = false -> flattenObject_at x [K] = [(K, x)].
Proof.
  destruct x as [| | | | | |[|kv o]]; simpl; try reflexivity. discriminate.
Qed.

Lemma get_flatten_fold o :
  forall acc,
    occurrences K o <= 1 ->
    get K (fold_left assign1
             (map (fun kv => flattenObject_at (snd kv) [fst kv]) o) acc)
    = match get K o with
      | Some v => if isValidObject v then get K acc else Some v
      | None => get K acc
      end.
Proof.
  induction o as [|[k x] r IH]; intros acc Hocc; simpl; auto.
  unfold occurrences in Hocc. simpl in Hocc.
  destruct (k =? K) eqn:E.
  - apply String.eqb_eq in E. subst k. simpl in Hocc.
    assert (Hr : occurrences K r = 0) by (unfold occurrences; lia).
    rewrite IH by lia.
    rewrite (occurrences_zero_get _ _ Hr).
    destruct (isValidObject x) eqn:Hv.
    + apply get_assign1_absent. now apply flatten_nested_key.
    + rewrite (flatten_leaf _ Hv). unfold assign1. simpl.
      apply get_set_same.
  - apply String.eqb_neq in E.
    rewrite IH by exact Hocc.
    rewrite (get_assign1_absent K acc (flattenObject_at x [k]))
      by now apply flatten_other_key.
    reflexivity.
Qed.

(** A top-level key that names one property survives flattening with
    its value when that is a leaf, and is replaced by dotted keys when
    it is a nested object. *)
Lemma get_flattenObject o :
  occurrences K o <= 1 ->
  get K (flattenObject o)
  = match get K o with
    | Some v => if isValidObject v then None else Some v
    | None => None
    end.
Proof.
  intro Hocc. destruct o as [|kv r]; [reflexivity|].
  unfold flattenObject. cbn [flattenObject_at]. unfold Object_assign.
  cbn [app].
  now rewrite get_flatten_fold.
Qed.

End TopLevelKey.

(** ** The query builder *)

(** A key other than the three the builder adds comes from the flattened
    filter. *)
Lemma get_query_from_filter params k :
  k <> "$limit" -> k <> "$page" -> k <> "$sort" ->
  get k (fst (getQueryForParams params))
  = get k (flattenObject (rewriteFilter params)).
Proof.
  intros Hl Hp Hs. unfold getQueryForParams. cbn [fst].
  unfold Object_assign. cbn [fold_left].
  destruct (negb (field (sort params) =? "")).
  - unfold assign1. cbn [fold_left fst snd].
    rewrite !get_set_other by congruence. reflexivity.
  - unfold assign1. cbn [fold_left fst snd].
    rewrite !get_set_other by congruence. reflexivity.
Qed.

Lemma get_query_sort params :
  field (sort params) <> "" ->
  get "$sort" (fst (getQueryForParams params))
  = Some (VStr (sortPrefix (order (sort params))
                ++ sortName (field (sort params))))
  /\ occurrences "$sort" (fst (getQueryForParams params)) = 1.
Proof.
  intro Hf. apply String.eqb_neq in Hf.
  unfold getQueryForParams. cbn [fst]. rewrite Hf. cbn [negb].
  unfold Object_assign, assign1. cbn [fold_left fst snd].
  split; [apply get_set_same | apply occurrences_set_same].
Qed.

(** The filter after the call, read at a key the builder does not
    touch. *)
Lemma get_rewriteFilter_other params k :
  k <> "$sort" -> k <> "$term" -> k <> "q" ->
  get k (rewriteFilter params) = get k (filter params).
Proof.
  intros Hs Ht Hq. unfold rewriteFilter. cbv zeta.
  assert (H1 : get k (if negb (field (sort params) =? "")
                      then set "$sort"
                             (VStr (sortPrefix (order (sort params))
                                    ++ field (sort params))) (filter params)
                      else filter params) = get k (filter params)).
  { destruct (negb _); auto. apply get_set_other. congruence. }
  destruct (not_nullish _); auto.
  rewrite get_del_other by congruence.
  rewrite get_set_other by congruence. exact H1.
Qed.

Lemma read_q_after_sort params :
  read "q" (if negb (field (sort params) =? "")
            then set "$sort"
                   (VStr (sortPrefix (order (sort params))
                          ++ field (sort params))) (filter params)
            else filter params)
  = read "q" (filter params).
Proof.
  unfold read. destruct (negb _); auto.
  rewrite get_set_other by discriminate. reflexivity.
Qed.

(** With a [q] that is neither [null] nor [undefined], the filter loses
    [q] and holds its value once under [$term]. *)
Lemma rewriteFilter_renamed params v :
  get "q" (filter params) = Some v ->
  not_nullish v = true ->
  get "q" (rewriteFilter params) = None
  /\ get "$term" (rewriteFilter params) = Some v
  /\ occurrences "$term" (rewriteFilter params) = 1.
Proof.
  intros Hq Hv. unfold rewriteFilter. cbv zeta.
  rewrite read_q_after_sort. unfold read. rewrite Hq, Hv.
  split; [apply get_del_same|]. split.
  - rewrite get_del_other by discriminate. apply get_set_same.
  - rewrite occurrences_del_other by discriminate.
    apply occurrences_set_same.
Qed.

(** A filter without a top-level [id] stays without one. *)
Lemma query_without_id params :
  get "id" (filter params) = None ->
  get "id" (fst (getQueryForParams params)) = None.
Proof.
  intro H.
  rewrite get_query_from_filter by discriminate.
  assert (Ha : get "id" (rewriteFilter params) = None)
    by (rewrite get_rewriteFilter_other by discriminate; exact H).
  rewrite (get_flattenObject "id" eq_refl).
  - now rewrite Ha.
  - rewrite (get_none_occurrences _ _ Ha). lia.
Qed.

(** ** Promises and the fan-out *)

Lemma firstRejection_none {A : Type} (ps : list (promise A)) :
  firstRejection ps = None <-> Forall isFulfilled ps.
Proof.
  induction ps as [|[t a|t e] r IH]; simpl.
  - split; auto.
  - rewrite IH. split; intro H.
    + constructor; auto. now exists t, a.
    + now inversion H.
  - split; intro H.
    + destruct (firstRejection r) as [[t' e']|]; [destruct (Nat.ltb t' t)|];
        discriminate.
    + inversion H as [|? ? [t' [a' Hp]] _]. discriminate.
Qed.

(** The rejection reported is one of the promises', and none settles
    before it. *)
Lemma firstRejection_some {A : Type} (ps : list (promise A)) t e :
  firstRejection ps = Some (t, e) ->
  In (Rejected t e) ps
  /\ forall t' e', In (Rejected t' e') ps -> t <= t'.
Proof.
  revert t e. induction ps as [|[t0 a|t0 e0] r IH]; intros t e H; simpl in H.
  - discriminate.
  - destruct (IH _ _ H) as [Hin Hmin]. split; [now right|].
    intros t' e' [Hd|Hr]; [discriminate|eauto].
  - destruct (firstRejection r) as [[t1 e1]|] eqn:Hr.
    + destruct (IH _ _ eq_refl) as [Hin Hmin].
      destruct (Nat.ltb t1 t0) eqn:Hlt; inversion H; subst.
      * apply Nat.ltb_lt in Hlt. split; [now right|].
        intros t' e' [Hd|Hr']; [inversion Hd; lia|eauto].
      * apply Nat.ltb_ge in Hlt. split; [now left|].
        intros t' e' [Hd|Hr']; [inversion Hd; lia|].
        specialize (Hmin _ _ Hr'). lia.
    + inversion H; subst. split; [now left|].
      intros t' e' [Hd|Hr']; [inversion Hd; lia|].
      apply firstRejection_none in Hr. rewrite Forall_forall in Hr.
      destruct (Hr _ Hr') as [t2 [a2 Hp]]. discriminate.
Qed.

Lemma firstRejection_exists {A : Type} (ps : list (promise A)) :
  Exists isRejected ps -> exists t e, firstRejection ps = Some (t, e).
Proof.
  intro H. destruct (firstRejection ps) as [[t e]|] eqn:E; [eauto|].
  apply firstRejection_none in E. rewrite Forall_forall in E.
  apply Exists_exists in H. destruct H as [p [Hin [t [e Hp]]]].
  destruct (E _ Hin) as [t' [a Hp']]. congruence.
Qed.

(** The values of promises that are all fulfilled, in their order. *)
Lemma fulfilledValues_all {A : Type} (ps : list (promise A)) (vs : list A) :
  Forall2 (fun p v => exists t, p = Fulfilled t v) ps vs ->
  fulfilledValues ps = vs /\ firstRejection ps = None.
Proof.
  induction 1 as [|p v ps vs [t Hp] _ [IH1 IH2]]; simpl; auto.
  subst p. now rewrite IH1, IH2.
Qed.

Lemma map_fst_combine {A B : Type} (l1 : list A) (l2 : list B) :
  length l1 = length l2 -> map fst (combine l1 l2) = l1.
Proof.
  revert l2. induction l1 as [|a l1 IH]; intros [|b l2] H; simpl in *;
    try discriminate; auto.
  f_equal. apply IH. lia.
Qed.

Lemma map_snd_combine {A B : Type} (l1 : list A) (l2 : list B) :
  length l1 = length l2 -> map snd (combine l1 l2) = l2.
Proof.
  revert l2. induction l1 as [|a l1 IH]; intros [|b l2] H; simpl in *;
    try discriminate; auto.
  f_equal. apply IH. lia.
Qed.

Section AdapterFacts.

Variable apiUrl : string.
Variable stringify : obj -> string.
Variable JSON_stringify : value -> string.
Variable World : Type.
Variable httpClient : World -> string -> Options -> World * promise Response.

Lemma issue_length requests :
  forall w, length (snd (issue World httpClient requests w)) = length requests.
Proof.
  induction requests as [|r rest IH]; intro w; simpl; auto.
  destruct (httpClient w (url r) (options r)) as [w1 p].
  specialize (IH w1).
  destruct (issue World httpClient rest w1) as [w2 ps]. simpl in *.
  now rewrite IH.
Qed.

(** The fan-out calls the transport once per request, in order, and
    settles as [Promise.all] of the replies does. *)
Lemma fanOut_spec requests params w :
  let run := fanOut World httpClient requests params w in
  map fst (calls run) = requests
  /\ outcome_of run
     = Returned (then_ (Promise_all (map snd (calls run))) collect)
  /\ params_after run = params.
Proof.
  unfold fanOut.
  pose proof (issue_length requests w) as Hlen.
  destruct (issue World httpClient requests w) as [w' ps]. simpl in *.
  rewrite map_fst_combine, map_snd_combine by auto. auto.
Qed.

Lemma issue_trace requests :
  forall w,
    transportTrace httpClient w
      (combine requests (snd (issue World httpClient requests w)))
      (fst (issue World httpClient requests w)).
Proof.
  induction requests as [|r rest IH]; intro w; simpl; auto.
  destruct (httpClient w (url r) (options r)) as [w1 p] eqn:Hcall.
  specialize (IH w1).
  destruct (issue World httpClient rest w1) as [w2 ps]. simpl in *.
  exists w1. split; [exact Hcall | exact IH].
Qed.

Lemma fanOut_trace requests params w :
  transportTrace httpClient w
    (calls (fanOut World httpClient requests params w))
    (world (fanOut World httpClient requests params w)).
Proof.
  unfold fanOut. pose proof (issue_trace requests w) as H.
  destruct (issue World httpClient requests w) as [w' ps]. exact H.
Qed.

End AdapterFacts.

(** ** The bulk operations *)

Lemma dataProvider_bulk apiUrl stringify JSON_stringify World httpClient
    type resource params w :
  type = UPDATE_MANY \/ type = DELETE_MANY ->
  dataProvider apiUrl stringify JSON_stringify World httpClient
    type resource params w
  = fanOut World httpClient
      (map (bulkRequest apiUrl JSON_stringify type resource params)
         (ids params)) params w.
Proof.
  intros [H|H]; subst type; unfold dataProvider.
  - rewrite String.eqb_refl. reflexivity.
  - change (DELETE_MANY =? UPDATE_MANY) with false.
    rewrite String.eqb_refl. reflexivity.
Qed.

(** C6 (update-many, delete-many): the transport is called once per id, in
    the order of the ids, each call with the url of that id and the
    method of the kind (and the data as body for update-many), in the
    world the call before it left; when every call is fulfilled the
    result's data is the list of the responses' json bodies in that same
    order; when some call is rejected the returned promise is rejected
    with the error of one of the rejected calls (the earliest to settle);
    so a fulfilled result means that every call was fulfilled. *)
Theorem C6_bulk_fan_out :
  forall apiUrl stringify JSON_stringify World httpClient
         type resource params (w : World),
    type = UPDATE_MANY \/ type = DELETE_MANY ->
    let run := dataProvider apiUrl stringify JSON_stringify World httpClient
                 type resource params w in
    let replies := map snd (calls run) in
    transportTrace httpClient w (calls run) (world run)
    /\ map fst (calls run)
       = map (bulkRequest apiUrl JSON_stringify type resource params)
           (ids params)
    /\ (forall responses,
          Forall2 (fun p r => exists t, p = Fulfilled t r) replies responses ->
          exists t,
            outcome_of run
            = Returned (Fulfilled t {| Result.data := VArr (map json responses);
                                       Result.total := None |}))
    /\ (Exists isRejected replies ->
        exists t e,
          outcome_of run = Returned (Rejected t e)
          /\ In (Rejected t e) replies
          /\ forall t' e', In (Rejected t' e') replies -> t <= t')
    /\ (forall t r,
          outcome_of run = Returned (Fulfilled t r) ->
          Forall isFulfilled replies).
Proof.
  intros apiUrl stringify JSON_stringify World httpClient type resource
    params w Hbulk run replies.
  subst replies run. rewrite dataProvider_bulk by assumption.
  split; [apply fanOut_trace|].
  destruct (fanOut_spec World httpClient
              (map (bulkRequest apiUrl JSON_stringify type resource params)
                 (ids params)) params w) as [Hreq [Hout _]].
  split; [exact Hreq|]. rewrite Hout. clear Hout Hreq.
  set (ps := map snd (calls _)). clearbody ps.
  unfold Promise_all, then_, collect.
  repeat split.
  - intros responses Hall.
    destruct (fulfilledValues_all _ _ Hall) as [Hv Hn].
    rewrite Hn, Hv. eauto.
  - intro Hex.
    destruct (firstRejection_exists _ Hex) as [t [e Hfr]].
    rewrite Hfr. exists t, e.
    destruct (firstRejection_some _ _ _ Hfr) as [Hin Hmin]. auto.
  - intros t r H.
    destruct (firstRejection ps) as [[t' e']|] eqn:Hfr; [discriminate|].
    now apply firstRejection_none.
Qed.

(** C10 (update-many, delete-many with no ids): the transport is not
    called, and the returned promise is fulfilled with [{data: []}]. *)
Theorem C10_empty_bulk :
  forall apiUrl stringify JSON_stringify World httpClient
         type resource params (w : World),
    type = UPDATE_MANY \/ type = DELETE_MANY ->
    ids params = [] ->
    let run := dataProvider apiUrl stringify JSON_stringify World httpClient
                 type resource params w in
    calls run = []
    /\ outcome_of run
       = Returned (Fulfilled 0 {| Result.data := VArr [];
                                  Result.total := None |})
    /\ world run = w.
Proof.
  intros apiUrl stringify JSON_stringify World httpClient type resource
    params w Hbulk Hids run.
  subst run. rewrite dataProvider_bulk by assumption.
  rewrite Hids. simpl. auto.
Qed.

(** ** Unsupported kinds *)

(** C7: for a kind that is none of the nine, the call throws (it returns
    no promise) an error whose message is [Unsupported fetch action type]
    followed by the kind, and the transport is not called. *)
Theorem C7_unsupported_kind_throws :
  forall apiUrl stringify JSON_stringify World httpClient
         type resource params (w : World),
    ~ In type recognizedTypes ->
    let run := dataProvider apiUrl stringify JSON_stringify World httpClient
                 type resource params w in
    outcome_of run = Threw (Error ("Unsupported fetch action type " ++ type))
    /\ calls run = []
    /\ world run = w.
Proof.
  intros apiUrl stringify JSON_stringify World httpClient type resource
    params w Hnot run.
  assert (Hne : forall k, In k recognizedTypes -> (type =? k) = false).
  { intros k Hk. apply String.eqb_neq. intro E. subst k. contradiction. }
  subst run. unfold dataProvider, convertDataRequestToHTTP.
  rewrite !Hne by (unfold recognizedTypes; simpl; tauto).
  simpl. auto.
Qed.

(** ** Sort and free-text search *)

(** C3: with a non-empty sort field the built query has exactly one
    [$sort] entry; its value is the field name, [_id] standing for [id],
    with [-] in front when the order is [DESC] and nothing in front
    otherwise. *)
Theorem C3_sort_translation :
  forall params,
    field (sort params) <> "" ->
    let query := fst (getQueryForParams params) in
    let name := if field (sort params) =? "id" then "_id"
                else field (sort params) in
    occurrences "$sort" query = 1
    /\ (order (sort params) = "DESC" ->
        get "$sort" query = Some (VStr ("-" ++ name)))
    /\ (order (sort params) <> "DESC" ->
        get "$sort" query = Some (VStr name)).
Proof.
  intros params Hf query name. subst query name.
  destruct (get_query_sort params Hf) as [Hget Hocc].
  split; [exact Hocc|]. rewrite Hget. unfold sortPrefix, sortName.
  split; intro Ho.
  - rewrite Ho. reflexivity.
  - apply String.eqb_neq in Ho. rewrite Ho. reflexivity.
Qed.

(** C8, as the code has it: when the filter's [q] is neither [null] nor
    [undefined] the built query has no [q] key, and it has a [$term] key
    holding q's value when that value is a leaf (anything but an object
    with keys, which is flattened further). *)
Theorem C8_q_renamed_to_term :
  forall params v,
    get "q" (filter params) = Some v ->
    not_nullish v = true ->
    let query := fst (getQueryForParams params) in
    get "q" query = None
    /\ (isValidObject v = false -> get "$term" query = Some v).
Proof.
  intros params v Hq Hv query. subst query.
  destruct (rewriteFilter_renamed params v Hq Hv) as [Hnoq [Hterm Hocc]].
  rewrite !get_query_from_filter by discriminate.
  split.
  - rewrite (get_flattenObject "q" eq_refl).
    + now rewrite Hnoq.
    + rewrite (get_none_occurrences _ _ Hnoq). lia.
  - intro Hleaf.
    rewrite (get_flattenObject "$term" eq_refl) by lia.
    now rewrite Hterm, Hleaf.
Qed.

(** ** The response translator *)

Lemma renamed_spec o :
  get "id" (renamed o) = Some (read "_id" o)
  /\ get "_id" (renamed o) = None
  /\ forall k, k <> "id" -> k <> "_id" -> get k (renamed o) = get k o.
Proof.
  unfold renamed. split; [|split].
  - rewrite get_del_other by discriminate. apply get_set_same.
  - apply get_del_same.
  - intros k H1 H2. rewrite get_del_other by congruence.
    apply get_set_other. congruence.
Qed.

Lemma renamed_exposesId o : exposesId (renamed o).
Proof.
  destruct (renamed_spec o) as [H1 [H2 _]]. split; auto.
  rewrite H1. discriminate.
Qed.

(** A record with a truthy [_id] is renamed. *)
Lemma renameId_truthy o :
  truthy (read "_id" o) = true -> renameId (VObj o) = inr (VObj (renamed o)).
Proof.
  intro Ht. unfold renameId. simpl. now rewrite Ht.
Qed.

(** Whatever record the callback of the list case yields is renamed. *)
Lemma renameId_record d y :
  renameId d = inr y -> forall o, y = VObj o -> exposesId o.
Proof.
  unfold renameId. intros H o Ho. subst y.
  destruct d as [| |b|z|s|l|o0]; simpl in H; try discriminate.
  destruct (truthy (read "_id" o0)) eqn:Ht.
  - inversion H; subst. apply renamed_exposesId.
  - inversion H as [E]. rewrite E in Ht. discriminate.
Qed.

Lemma mapE_renameId_records docs :
  forall data,
    mapE renameId docs = inr data ->
    forall o, In (VObj o) data -> exposesId o.
Proof.
  induction docs as [|d r IH]; intros data H o Hin; simpl in H.
  - inversion H; subst. contradiction.
  - destruct (renameId d) as [e|y] eqn:Hd; [discriminate|].
    destruct (mapE renameId r) as [e|ys] eqn:Hr; [discriminate|].
    inversion H; subst. destruct Hin as [Hy|Hin].
    + eapply renameId_record; eauto.
    + eapply IH; eauto.
Qed.

(** Records that all have a truthy [_id] are all renamed, in order. *)
Lemma mapE_renameId_truthy (records : list obj) :
  Forall (fun o => truthy (read "_id" o) = true) records ->
  mapE renameId (map VObj records)
  = inr (map (fun o => VObj (renamed o)) records).
Proof.
  induction 1 as [|o r Ho _ IH]; simpl; auto.
  rewrite (renameId_truthy o Ho). fold renameId. now rewrite IH.
Qed.

Lemma convertHTTPResponse_records response type resource params r params' :
  convertHTTPResponse response type resource params = (inr r, params') ->
  returned_ok type r.
Proof.
  unfold convertHTTPResponse, returned_ok.
  destruct (isListType type).
  - destruct (getProp "docs" (json response)) as [e|[| | | | |docs|]];
      try discriminate.
    destruct (mapE renameId docs) as [e|data] eqn:Hm; [discriminate|].
    destruct (getProp "items" (json response)) as [e|items]; [discriminate|].
    destruct (getProp "total" items) as [e|total]; [discriminate|].
    intro H. inversion H; subst. simpl.
    exists data. split; auto. exact (mapE_renameId_records docs data Hm).
  - destruct (type =? CREATE).
    + intro H. inversion H; subst. simpl.
      intros o Ho. inversion Ho; subst. apply renamed_exposesId.
    + destruct (json response) as [| |b|z|s|l|o0]; simpl; try discriminate.
      * intro H. inversion H; subst. simpl. discriminate.
      * intro H. inversion H; subst. simpl.
        intros o Ho. inversion Ho; subst. apply renamed_exposesId.
Qed.

(** C9: translating a create response gives, whatever the response, the
    caller's [params.data] with the value of [_id] under [id] and without
    [_id], and [params.data] is that same object afterwards; so a create
    call whose request is fulfilled returns it. *)
Theorem C9_create_result_from_params :
  forall apiUrl stringify JSON_stringify World httpClient
         resource params (w : World),
    let data' := del "_id" (set "id" (read "_id" (data params)) (data params)) in
    let result := {| Result.data := VObj data'; Result.total := None |} in
    let run := dataProvider apiUrl stringify JSON_stringify World httpClient
                 CREATE resource params w in
    (forall response,
        convertHTTPResponse response CREATE resource params
        = (inr result, with_data params data'))
    /\ (forall t response,
          map snd (calls run) = [Fulfilled t response] ->
          outcome_of run = Returned (Fulfilled t result)
          /\ data (params_after run) = data')
    /\ get "id" data' = Some (read "_id" (data params))
    /\ get "_id" data' = None
    /\ (forall k, k <> "id" -> k <> "_id" -> get k data' = get k (data params)).
Proof.
  intros apiUrl stringify JSON_stringify World httpClient resource params w
    data' result run.
  split; [reflexivity|]. split; [|apply renamed_spec].
  intros t response Hcalls. subst run.
  unfold dataProvider in *.
  change (CREATE =? UPDATE_MANY) with false in *.
  change (CREATE =? DELETE_MANY) with false in *.
  cbv iota in *.
  change (convertDataRequestToHTTP apiUrl stringify JSON_stringify CREATE
            resource params)
    with (@inr error Request
            {| url := apiUrl ++ "/" ++ resource;
               options := {| method := Some "POST";
                             body := Some (cleanData JSON_stringify params) |} |},
          params) in *.
  cbv iota beta in *.
  destruct (httpClient w _ _) as [w' [t0 response0|t0 e0]];
    simpl in Hcalls; inversion Hcalls; subst.
  simpl. auto.
Qed.

(** ** Records across the boundary *)

Lemma clean_housekeeping params :
  forall k, In k housekeeping -> get k (clean params) = None.
Proof.
  intros k Hk. unfold clean.
  unfold housekeeping in Hk. simpl in Hk.
  destruct Hk as [H|[H|[H|[H|[H|[]]]]]]; subst k;
    repeat first [ apply get_del_same
                 | rewrite get_del_other by discriminate ].
Qed.

Lemma convertDataRequestToHTTP_body apiUrl stringify JSON_stringify
    type resource params request params' :
  convertDataRequestToHTTP apiUrl stringify JSON_stringify
    type resource params = (inr request, params') ->
  sent_ok JSON_stringify params (body (options request)).
Proof.
  unfold convertDataRequestToHTTP, referenceQuery, sent_ok, cleanData.
  destruct (getQueryForParams params) as [query params1].
  repeat (match goal with
          | |- context [if ?b then _ else _] => destruct b
          end);
    intro H; inversion H; subst; simpl; auto.
  all: right; split; auto; apply clean_housekeeping.
Qed.









(** ** Fields named [id] on the wire *)

(** C5, as the code has it: a request carries a field named [id] only
    when the caller's params supply it.  A create or update body is the
    cleaned copy of [params.data], which has no [id]; every other request
    of the seven single-request kinds has no body; the list query has no
    [id] key when [params.filter] has none at its top level, and the
    reference query has none when moreover [params.target] is not [id];
    the get-many query strings encode mappings with the one key [_id];
    an update-many body is [params.data] serialized as it is. *)
Theorem C5_id_only_from_caller :
  forall apiUrl stringify JSON_stringify World httpClient
         resource params (w : World),
    let toHTTP := convertDataRequestToHTTP apiUrl stringify JSON_stringify in
    (forall type request params',
        toHTTP type resource params = (inr request, params') ->
        body (options request) = None
        \/ body (options request) = Some (JSON_stringify (VObj (clean params)))
           /\ get "id" (clean params) = None)
    /\ (get "id" (filter params) = None ->
        exists query params',
          getQueryForParams params = (query, params')
          /\ toHTTP GET_LIST resource params
             = (inr {| url := apiUrl ++ "/" ++ resource ++ "?" ++ stringify query;
                       options := {| method := None; body := None |} |},
                params')
          /\ get "id" query = None)
    /\ (get "id" (filter params) = None ->
        target params <> "id" ->
        exists query params',
          referenceQuery params = (query, params')
          /\ toHTTP GET_MANY_REFERENCE resource params
             = (inr {| url := apiUrl ++ "/" ++ resource ++ "?" ++ stringify query;
                       options := {| method := None; body := None |} |},
                params')
          /\ get "id" query = None)
    /\ toHTTP GET_MANY resource params
       = (inr {| url := apiUrl ++ "/" ++ resource ++ "?"
                        ++ join "&" (map (fun _id => stringify [("_id", _id)])
                                       (ids params));
                 options := {| method := None; body := None |} |},
          params)
    /\ (forall request p,
          In (request, p)
            (calls (dataProvider apiUrl stringify JSON_stringify World
                      httpClient UPDATE_MANY resource params w)) ->
          body (options request) = Some (JSON_stringify (VObj (data params)))).
Proof.
  intros apiUrl stringify JSON_stringify World httpClient resource params w
    toHTTP.
  subst toHTTP. split; [|split; [|split; [|split]]].
  - intros type request params' H.
    destruct (convertDataRequestToHTTP_body _ _ _ _ _ _ _ _ H) as [Hb|[Hb Hk]];
      [now left|right].
    split; auto. apply Hk. unfold housekeeping. simpl. auto.
  - intro Hid.
    pose proof (query_without_id params Hid) as Hq.
    unfold convertDataRequestToHTTP.
    change (GET_LIST =? GET_LIST) with true. cbv iota.
    destruct (getQueryForParams params) as [query params'].
    exists query, params'. auto.
  - intros Hid Ht.
    pose proof (query_without_id params Hid) as Hq.
    unfold convertDataRequestToHTTP.
    change (GET_MANY_REFERENCE =? GET_LIST) with false.
    change (GET_MANY_REFERENCE =? GET_ONE) with false.
    change (GET_MANY_REFERENCE =? GET_MANY_REFERENCE) with true. cbv iota.
    unfold referenceQuery.
    assert (Htarget : target (snd (getQueryForParams params)) = target params)
      by reflexivity.
    destruct (getQueryForParams params) as [query params']. simpl in *.
    eexists. eexists. split; [reflexivity|]. split; [reflexivity|].
    rewrite get_set_other by congruence. exact Hq.
  - reflexivity.
  - intros request p Hin.
    rewrite dataProvider_bulk in Hin by (now left).
    destruct (fanOut_spec World httpClient
                (map (bulkRequest apiUrl JSON_stringify UPDATE_MANY resource
                        params) (ids params)) params w) as [Hreq _].
    apply (in_map fst) in Hin. rewrite Hreq in Hin. simpl in Hin.
    apply in_map_iff in Hin. destruct Hin as [i [Hi _]].
    subst request. reflexivity.
Qed.

(** ** Where the code departs from the specification *)

(** C2, at a record whose [_id] is falsy: the list translation yields the
    [_id] value in place of the record, where the specification has the
    record
    [{id: 0, name: "x"}]. *)
Theorem C2_falsy_id_yields_no_record :
  forall resource params,
    convertHTTPResponse
      {| json := VObj [("docs", VArr [VObj [("_id", VNum 0);
                                            ("name", VStr "x")]]);
                       ("items", VObj [("total", VNum 1)])] |}
      GET_LIST resource params
    = (inr {| Result.data := VArr [VNum 0];
              Result.total := Some (VNum 1) |}, params).
Proof.
  reflexivity.
Qed.

(** C4, at a list request sorted by title: building the request writes
    [$sort] into the caller's [params.filter], which was empty. *)
Theorem C4_list_request_rewrites_filter :
  forall apiUrl stringify JSON_stringify resource,
    let params :=
      {| pagination := {| page := VNum 1; perPage := VNum 24 |};
         sort := {| field := "title"; order := "DESC" |};
         filter := [];
         id := VUndef; ids := []; target := ""; data := [] |} in
    filter (snd (convertDataRequestToHTTP apiUrl stringify JSON_stringify
                   GET_LIST resource params))
    = [("$sort", VStr "-title")].
Proof.
  reflexivity.
Qed.


(** A reference request whose target field is [id] sends [id=7]. *)
Lemma C5_reference_target_id_is_sent :
  fst (convertDataRequestToHTTP "base" Demo.stringify Demo.JSON_stringify
         GET_MANY_REFERENCE "comments" (Demo.referenceParams "id"))
  = inr {| url := "base/comments?$limit=10&$page=1&id=7";
           options := {| method := None; body := None |} |}
  /\ get "id" (fst (referenceQuery (Demo.referenceParams "id")))
     = Some (VNum 7).
Proof.
  split; reflexivity.
Qed.

(** A filter whose [q] is [null] keeps [q] and gets no [$term]. *)
Lemma C8_null_q_is_kept :
  get "q" (filter (Demo.searchParams VNull)) = Some VNull
  /\ get "q" (fst (getQueryForParams (Demo.searchParams VNull))) = Some VNull
  /\ get "$term" (fst (getQueryForParams (Demo.searchParams VNull))) = None.
Proof.
  repeat split; reflexivity.
Qed.

(** ** The theorems at work *)


Lemma C3_sort_translation_witness :
  field (sort Demo.listParams) <> ""
  /\ get "$sort" (fst (getQueryForParams Demo.listParams))
     = Some (VStr "-title")
  /\ field (sort Demo.idSortParams) <> ""
  /\ get "$sort" (fst (getQueryForParams Demo.idSortParams))
     = Some (VStr "_id").
Proof.
  assert (H1 : field (sort Demo.listParams) <> "") by discriminate.
  assert (H2 : field (sort Demo.idSortParams) <> "") by discriminate.
  split; [exact H1|]. split.
  - exact (proj1 (proj2 (C3_sort_translation Demo.listParams H1)) eq_refl).
  - split; [exact H2|].
    apply (proj2 (proj2 (C3_sort_translation Demo.idSortParams H2))).
    discriminate.
Defined.

Lemma C5_id_only_from_caller_witness :
  ((get "id" (filter (Demo.referenceParams "post_id")) = None
    /\ target (Demo.referenceParams "post_id") <> "id")
   /\ exists query params',
        referenceQuery (Demo.referenceParams "post_id") = (query, params')
        /\ convertDataRequestToHTTP "base" Demo.stringify Demo.JSON_stringify
             GET_MANY_REFERENCE "comments" (Demo.referenceParams "post_id")
           = (inr {| url := "base" ++ "/" ++ "comments" ++ "?"
                            ++ Demo.stringify query;
                     options := {| method := None; body := None |} |},
              params')
        /\ get "id" query = None)
  /\ (get "id" (filter Demo.listParams) = None
      /\ exists query params',
           getQueryForParams Demo.listParams = (query, params')
           /\ convertDataRequestToHTTP "base" Demo.stringify
                Demo.JSON_stringify GET_LIST "posts" Demo.listParams
              = (inr {| url := "base" ++ "/" ++ "posts" ++ "?"
                               ++ Demo.stringify query;
                        options := {| method := None; body := None |} |},
                 params')
           /\ get "id" query = None).
Proof.
  assert (H1 : get "id" (filter (Demo.referenceParams "post_id")) = None)
    by reflexivity.
  assert (H2 : target (Demo.referenceParams "post_id") <> "id")
    by discriminate.
  assert (H3 : get "id" (filter Demo.listParams) = None) by reflexivity.
  split.
  - split; [split; assumption|].
    exact (proj1 (proj2 (proj2
             (C5_id_only_from_caller "base" Demo.stringify Demo.JSON_stringify
                (list (promise Response)) Demo.httpClient
                "comments" (Demo.referenceParams "post_id") [])))
             H1 H2).
  - split; [exact H3|].
    exact (proj1 (proj2
             (C5_id_only_from_caller "base" Demo.stringify Demo.JSON_stringify
                (list (promise Response)) Demo.httpClient
                "posts" Demo.listParams []))
             H3).
Defined.

Lemma C6_bulk_fan_out_witness :
  (DELETE_MANY = UPDATE_MANY \/ DELETE_MANY = DELETE_MANY)
  /\ transportTrace Demo.httpClient
       [Fulfilled 1 Demo.record1; Rejected 2 (Reason (VStr "gone"))]
       (calls (Demo.provider DELETE_MANY "posts" Demo.twoIds
                 [Fulfilled 1 Demo.record1;
                  Rejected 2 (Reason (VStr "gone"))]))
       (world (Demo.provider DELETE_MANY "posts" Demo.twoIds
                 [Fulfilled 1 Demo.record1;
                  Rejected 2 (Reason (VStr "gone"))]))
  /\ map fst
       (calls (Demo.provider DELETE_MANY "posts" Demo.twoIds
                 [Fulfilled 1 Demo.record1;
                  Rejected 2 (Reason (VStr "gone"))]))
     = [{| url := "base/posts/1";
           options := {| method := Some "DELETE"; body := None |} |};
        {| url := "base/posts/2";
           options := {| method := Some "DELETE"; body := None |} |}]
  /\ (exists t e,
        outcome_of (Demo.provider DELETE_MANY "posts" Demo.twoIds
                      [Fulfilled 1 Demo.record1;
                       Rejected 2 (Reason (VStr "gone"))])
        = Returned (Rejected t e)
        /\ In (Rejected t e) [Fulfilled 1 Demo.record1;
                              Rejected 2 (Reason (VStr "gone"))])
  /\ (exists t,
        outcome_of (Demo.provider DELETE_MANY "posts" Demo.twoIds
                      [Fulfilled 2 Demo.record1;
                       Fulfilled 1 {| json := VNull |}])
        = Returned (Fulfilled t
                      {| Result.data := VArr [json Demo.record1; VNull];
                         Result.total := None |})).
Proof.
  assert (H : DELETE_MANY = UPDATE_MANY \/ DELETE_MANY = DELETE_MANY)
    by (right; reflexivity).
  split; [exact H|].
  destruct (C6_bulk_fan_out "base" Demo.stringify Demo.JSON_stringify
              (list (promise Response)) Demo.httpClient
              DELETE_MANY "posts" Demo.twoIds
              [Fulfilled 1 Demo.record1; Rejected 2 (Reason (VStr "gone"))] H)
    as [Htrace [Hcalls [_ [Hrej _]]]].
  split; [exact Htrace|]. split; [exact Hcalls|]. split.
  - destruct Hrej as [t [e [Hout [Hin _]]]].
    + apply Exists_cons_tl. apply Exists_cons_hd.
      exists 2, (Reason (VStr "gone")). reflexivity.
    + exists t, e. split; [exact Hout | exact Hin].
  - destruct (C6_bulk_fan_out "base" Demo.stringify Demo.JSON_stringify
                (list (promise Response)) Demo.httpClient
                DELETE_MANY "posts" Demo.twoIds
                [Fulfilled 2 Demo.record1; Fulfilled 1 {| json := VNull |}] H)
      as [_ [_ [Hall _]]].
    apply (Hall [Demo.record1; {| json := VNull |}]).
    repeat constructor; eexists; reflexivity.
Defined.

Lemma C7_unsupported_kind_throws_witness :
  ~ In "PATCH_ALL" recognizedTypes
  /\ outcome_of (Demo.provider "PATCH_ALL" "posts" Demo.noParams
                   [Fulfilled 1 Demo.record1])
     = Threw (Error "Unsupported fetch action type PATCH_ALL")
  /\ calls (Demo.provider "PATCH_ALL" "posts" Demo.noParams
              [Fulfilled 1 Demo.record1]) = []
  /\ world (Demo.provider "PATCH_ALL" "posts" Demo.noParams
              [Fulfilled 1 Demo.record1]) = [Fulfilled 1 Demo.record1].
Proof.
  assert (H : ~ In "PATCH_ALL" recognizedTypes).
  { unfold recognizedTypes. simpl.
    intros [E|[E|[E|[E|[E|[E|[E|[E|[E|[]]]]]]]]]]; discriminate E. }
  split; [exact H|].
  exact (C7_unsupported_kind_throws "base" Demo.stringify Demo.JSON_stringify
           (list (promise Response)) Demo.httpClient
           "PATCH_ALL" "posts" Demo.noParams [Fulfilled 1 Demo.record1] H).
Defined.

Lemma C8_q_renamed_to_term_witness :
  (get "q" (filter (Demo.searchParams (VStr "x"))) = Some (VStr "x")
   /\ not_nullish (VStr "x") = true
   /\ isValidObject (VStr "x") = false)
  /\ get "q" (fst (getQueryForParams (Demo.searchParams (VStr "x")))) = None
  /\ get "$term" (fst (getQueryForParams (Demo.searchParams (VStr "x"))))
     = Some (VStr "x").
Proof.
  assert (H1 : get "q" (filter (Demo.searchParams (VStr "x")))
               = Some (VStr "x")) by reflexivity.
  assert (H2 : not_nullish (VStr "x") = true) by reflexivity.
  assert (H3 : isValidObject (VStr "x") = false) by reflexivity.
  split; [repeat split; assumption|].
  destruct (C8_q_renamed_to_term (Demo.searchParams (VStr "x")) (VStr "x")
              H1 H2) as [Hq Hterm].
  split; [exact Hq | exact (Hterm H3)].
Defined.

Lemma C9_create_result_from_params_witness :
  map snd (calls (Demo.provider CREATE "posts" Demo.createParams
                    [Fulfilled 1 Demo.record1]))
  = [Fulfilled 1 Demo.record1]
  /\ outcome_of (Demo.provider CREATE "posts" Demo.createParams
                   [Fulfilled 1 Demo.record1])
     = Returned (Fulfilled 1
                   {| Result.data := VObj [("name", VStr "x");
                                           ("id", VStr "abc")];
                      Result.total := None |})
  /\ data (params_after (Demo.provider CREATE "posts" Demo.createParams
                           [Fulfilled 1 Demo.record1]))
     = [("name", VStr "x"); ("id", VStr "abc")].
Proof.
  assert (H : map snd (calls (Demo.provider CREATE "posts" Demo.createParams
                                [Fulfilled 1 Demo.record1]))
              = [Fulfilled 1 Demo.record1]) by reflexivity.
  split; [exact H|].
  exact (proj1 (proj2
           (C9_create_result_from_params "base" Demo.stringify
              Demo.JSON_stringify (list (promise Response)) Demo.httpClient
              "posts" Demo.createParams [Fulfilled 1 Demo.record1]))
           1 Demo.record1 H).
Defined.

Lemma C10_empty_bulk_witness :
  ((UPDATE_MANY = UPDATE_MANY \/ UPDATE_MANY = DELETE_MANY)
   /\ ids Demo.noParams = [])
  /\ calls (Demo.provider UPDATE_MANY "posts" Demo.noParams
              [Fulfilled 1 Demo.record1]) = []
  /\ outcome_of (Demo.provider UPDATE_MANY "posts" Demo.noParams
                   [Fulfilled 1 Demo.record1])
     = Returned (Fulfilled 0 {| Result.data := VArr [];
                                Result.total := None |})
  /\ world (Demo.provider UPDATE_MANY "posts" Demo.noParams
              [Fulfilled 1 Demo.record1]) = [Fulfilled 1 Demo.record1].
Proof.
  assert (H1 : UPDATE_MANY = UPDATE_MANY \/ UPDATE_MANY = DELETE_MANY)
    by (left; reflexivity).
  assert (H2 : ids Demo.noParams = []) by reflexivity.
  split; [split; assumption|].
  exact (C10_empty_bulk "base" Demo.stringify Demo.JSON_stringify
           (list (promise Response)) Demo.httpClient
           UPDATE_MANY "posts" Demo.noParams [Fulfilled 1 Demo.record1]
           H1 H2).
Defined.

(** * Further properties of the adapter *)

(** ** Objects with each property listed once *)

Lemma del_absent k o : occurrences k o = 0 -> del k o = o.
Proof.
  unfold occurrences.
  induction o as [|[k' v] r IH]; simpl; auto.
  destruct (k' =? k); simpl; [discriminate|].
  intro H. now rewrite IH.
Qed.

(** Writing the value a property already has changes nothing. *)
Lemma set_same_value k v o :
  occurrences k o = 1 -> get k o = Some v -> set k v o = o.
Proof.
  unfold occurrences.
  induction o as [|[k' v'] r IH]; simpl; [discriminate|].
  destruct (k' =? k) eqn:E; simpl; intros Hocc Hget.
  - apply String.eqb_eq in E. subst k'. inversion Hget; subst.
    rewrite del_absent; [reflexivity|]. unfold occurrences. lia.
  - now rewrite IH.
Qed.

Lemma get_none_not_in k (o : obj) : get k o = None <-> ~ In k (map fst o).
Proof.
  induction o as [|[k' v] r IH]; simpl.
  - tauto.
  - destruct (k' =? k) eqn:E.
    + apply String.eqb_eq in E. split; [discriminate|]. intro H.
      contradiction H. now left.
    + apply String.eqb_neq in E. rewrite IH. tauto.
Qed.

Lemma set_absent k v o : get k o = None -> set k v o = (o ++ [(k, v)])%list.
Proof.
  induction o as [|[k' v'] r IH]; simpl; auto.
  destruct (k' =? k); [discriminate|].
  intro H. now rewrite IH.
Qed.

Lemma get_app_absent k (o1 o2 : obj) :
  get k o1 = None -> get k (o1 ++ o2)%list = get k o2.
Proof.
  induction o1 as [|[k' v] r IH]; simpl; auto.
  destruct (k' =? k); [discriminate|]. exact IH.
Qed.

Lemma assign1_app target src :
  NoDup (map fst src) ->
  (forall k, In k (map fst src) -> get k target = None) ->
  assign1 target src = (target ++ src)%list.
Proof.
  unfold assign1. revert target.
  induction src as [|[k v] r IH]; intros target Hnd Hdis; simpl.
  - now rewrite app_nil_r.
  - inversion Hnd as [|? ? Hk Hr]; subst.
    rewrite set_absent by (apply Hdis; now left).
    rewrite IH; auto.
    + now rewrite <- app_assoc.
    + intros k' Hk'. rewrite get_app_absent by (apply Hdis; now right).
      simpl. destruct (k =? k') eqn:E; auto.
      apply String.eqb_eq in E. subst k'. contradiction.
Qed.

(** [Object.assign({}, o)] is a copy of [o]. *)
Lemma assign1_copy o : NoDup (map fst o) -> assign1 [] o = o.
Proof.
  intro H. now apply assign1_app.
Qed.

Lemma occurrences_rewriteFilter_other params k :
  k <> "$sort" -> k <> "$term" -> k <> "q" ->
  occurrences k (rewriteFilter params) = occurrences k (filter params).
Proof.
  intros Hs Ht Hq. unfold rewriteFilter. cbv zeta.
  assert (H1 : occurrences k
                 (if negb (field (sort params) =? "")
                  then set "$sort"
                         (VStr (sortPrefix (order (sort params))
                                ++ field (sort params))) (filter params)
                  else filter params) = occurrences k (filter params)).
  { destruct (negb _); auto. apply occurrences_set_other. congruence. }
  destruct (not_nullish _); auto.
  rewrite occurrences_del_other by congruence.
  rewrite occurrences_set_other by congruence. exact H1.
Qed.

(** ** More on the query builder *)

(** X1: the built query always holds [$limit = perPage] and
    [$page = page], each once, whatever the filter holds under those
    names. *)
Theorem X1_query_pagination :
  forall params,
    let query := fst (getQueryForParams params) in
    get "$limit" query = Some (perPage (pagination params))
    /\ get "$page" query = Some (page (pagination params))
    /\ occurrences "$limit" query = 1
    /\ occurrences "$page" query = 1.
Proof.
  intros params query. subst query.
  unfold getQueryForParams. cbn [fst].
  unfold Object_assign. cbn [fold_left].
  destruct (negb (field (sort params) =? ""));
    unfold assign1; cbn [fold_left fst snd];
    repeat split;
    repeat first [ apply get_set_same
                 | apply occurrences_set_same
                 | rewrite get_set_other by discriminate
                 | rewrite occurrences_set_other by discriminate ].
Qed.

(** X2: a filter key without a dot in it, other than [q], [$term],
    [$sort], [$limit] and [$page], goes into the query as it is when its
    value is a leaf, and does not appear under that name when its value is
    a nested object or when the filter lacks it. *)
Theorem X2_filter_key_passed_as_is :
  forall params k,
    hasDot k = false ->
    ~ In k ["q"; "$term"; "$sort"; "$limit"; "$page"] ->
    occurrences k (filter params) <= 1 ->
    get k (fst (getQueryForParams params))
    = match get k (filter params) with
      | Some v => if isValidObject v then None else Some v
      | None => None
      end.
Proof.
  intros params k Hdot Hk Hocc.
  assert (Hne : forall k', In k' ["q"; "$term"; "$sort"; "$limit"; "$page"] ->
                           k <> k').
  { intros k' Hin E. subst k'. contradiction. }
  assert (Hq : k <> "q") by (apply Hne; simpl; tauto).
  assert (Ht : k <> "$term") by (apply Hne; simpl; tauto).
  assert (Hs : k <> "$sort") by (apply Hne; simpl; tauto).
  assert (Hl : k <> "$limit") by (apply Hne; simpl; tauto).
  assert (Hp : k <> "$page") by (apply Hne; simpl; tauto).
  rewrite get_query_from_filter by assumption.
  rewrite (get_flattenObject k Hdot).
  - rewrite get_rewriteFilter_other by assumption. reflexivity.
  - rewrite occurrences_rewriteFilter_other by assumption. exact Hocc.
Qed.

(** X3: without a sort field the query's [$sort] is the filter's own
    [$sort] when that is a leaf, and there is none otherwise. *)
Theorem X3_no_sort_field :
  forall params,
    field (sort params) = "" ->
    occurrences "$sort" (filter params) <= 1 ->
    get "$sort" (fst (getQueryForParams params))
    = match get "$sort" (filter params) with
      | Some v => if isValidObject v then None else Some v
      | None => None
      end.
Proof.
  intros params Hf Hocc.
  assert (Hq : get "$sort" (fst (getQueryForParams params))
               = get "$sort" (flattenObject (rewriteFilter params))).
  { unfold getQueryForParams. cbn [fst].
    rewrite Hf. change (negb ("" =? "")) with false. cbv iota.
    unfold Object_assign, assign1. cbn [fold_left fst snd].
    rewrite !get_set_other by discriminate. reflexivity. }
  rewrite Hq. clear Hq.
  assert (Hfa : get "$sort" (rewriteFilter params) = get "$sort" (filter params)
                /\ occurrences "$sort" (rewriteFilter params)
                   = occurrences "$sort" (filter params)).
  { unfold rewriteFilter. cbv zeta.
    rewrite Hf. change (negb ("" =? "")) with false. cbv iota.
    destruct (not_nullish _); auto.
    rewrite get_del_other, get_set_other by discriminate.
    rewrite occurrences_del_other, occurrences_set_other by discriminate.
    auto. }
  destruct Hfa as [Hg Ho].
  rewrite (get_flattenObject "$sort" eq_refl) by (rewrite Ho; exact Hocc).
  now rewrite Hg.
Qed.

(** The filter as the builder leaves it is a fixed point of the two
    rewriting steps. *)
Lemma rewriteFilter_fixed params :
  (if negb (field (sort params) =? "")
   then set "$sort"
          (VStr (sortPrefix (order (sort params)) ++ field (sort params)))
          (rewriteFilter params)
   else rewriteFilter params) = rewriteFilter params
  /\ not_nullish (read "q" (rewriteFilter params)) = false.
Proof.
  unfold rewriteFilter. cbv zeta.
  set (s := VStr (sortPrefix (order (sort params)) ++ field (sort params))).
  destruct (negb (field (sort params) =? "")) eqn:Hf.
  - destruct (not_nullish (read "q" (set "$sort" s (filter params)))) eqn:Hq.
    + split.
      * apply set_same_value.
        -- rewrite occurrences_del_other, occurrences_set_other
             by discriminate.
           apply occurrences_set_same.
        -- rewrite get_del_other, get_set_other by discriminate.
           apply get_set_same.
      * unfold read. now rewrite get_del_same.
    + split; [|exact Hq].
      apply set_same_value;
        [apply occurrences_set_same | apply get_set_same].
  - destruct (not_nullish (read "q" (filter params))) eqn:Hq.
    + split; [reflexivity|]. unfold read. now rewrite get_del_same.
    + split; [reflexivity | exact Hq].
Qed.

Lemma get_some_nonempty k v (o : obj) : get k o = Some v -> o <> [].
Proof.
  intros H E. subst o. discriminate H.
Qed.

(** The query object is the caller's filter exactly when the filter is
    empty and no sort field is given. *)
Lemma queryIsFilter_true params :
  queryIsFilter params = true
  <-> filter params = [] /\ field (sort params) = "".
Proof.
  unfold queryIsFilter, rewriteFilter. cbv zeta. split.
  - intro H.
    destruct (field (sort params) =? "") eqn:Hf; cbn [negb] in H.
    + apply String.eqb_eq in Hf. split; [|exact Hf].
      destruct (not_nullish (read "q" (filter params))).
      * exfalso.
        assert (Hne : del "q" (set "$term" (read "q" (filter params))
                                 (filter params)) <> []).
        { apply (get_some_nonempty "$term" (read "q" (filter params))).
          rewrite get_del_other by discriminate. apply get_set_same. }
        destruct (del "q" _); [now contradiction Hne | discriminate H].
      * destruct (filter params); [reflexivity | discriminate H].
    + exfalso.
      set (f1 := set "$sort" _ (filter params)) in *.
      assert (H1 : get "$sort" f1 <> None)
        by (unfold f1; rewrite get_set_same; discriminate).
      destruct (not_nullish (read "q" f1)).
      * assert (Hne : del "q" (set "$term" (read "q" f1) f1) <> []).
        { apply (get_some_nonempty "$term" (read "q" f1)).
          rewrite get_del_other by discriminate. apply get_set_same. }
        destruct (del "q" _); [now contradiction Hne | discriminate H].
      * destruct f1; [now contradiction H1 | discriminate H].
  - intros [Hfilter Hfield]. rewrite Hfilter, Hfield. reflexivity.
Qed.

Lemma queryIsFilter_false params :
  queryIsFilter params = false
  <-> filter params <> [] \/ field (sort params) <> "".
Proof.
  pose proof (queryIsFilter_true params) as H.
  destruct (queryIsFilter params); split.
  - discriminate.
  - intros [Hne|Hne]; exfalso; apply Hne; apply H; reflexivity.
  - intros _.
    destruct (filter params) as [|kv r]; [|left; discriminate].
    right. intro Hf. destruct H as [_ H].
    discriminate (H (conj eq_refl Hf)).
  - reflexivity.
Qed.

(** With an empty filter and no sort field the query is the pagination,
    and it is the caller's filter afterwards. *)
Lemma getQueryForParams_empty params :
  filter params = [] -> field (sort params) = "" ->
  getQueryForParams params
  = ([("$limit", perPage (pagination params));
      ("$page", page (pagination params))],
     with_filter params [("$limit", perPage (pagination params));
                         ("$page", page (pagination params))]).
Proof.
  intros Hfilter Hfield.
  unfold getQueryForParams, queryIsFilter, rewriteFilter.
  rewrite Hfilter, Hfield. reflexivity.
Qed.

Lemma getQueryForParams_fresh params :
  queryIsFilter params = false ->
  snd (getQueryForParams params) = with_filter params (rewriteFilter params).
Proof.
  intro H. unfold getQueryForParams. cbn [snd]. now rewrite H.
Qed.

Lemma rewriteFilter_again params :
  rewriteFilter (with_filter params (rewriteFilter params))
  = rewriteFilter params.
Proof.
  destruct (rewriteFilter_fixed params) as [H1 H2].
  generalize (rewriteFilter params) H1 H2. intros f2 H1' H2'.
  unfold rewriteFilter. cbn [sort filter with_filter]. cbv zeta.
  now rewrite H1', H2'.
Qed.

Lemma getQueryForParams_again params :
  queryIsFilter params = false ->
  getQueryForParams (snd (getQueryForParams params))
  = getQueryForParams params.
Proof.
  intro Hfresh. rewrite (getQueryForParams_fresh params Hfresh).
  unfold getQueryForParams, queryIsFilter.
  cbn [pagination sort with_filter].
  rewrite rewriteFilter_again.
  fold (queryIsFilter params). rewrite Hfresh. reflexivity.
Qed.

Lemma referenceQuery_again params :
  queryIsFilter params = false ->
  referenceQuery (snd (referenceQuery params)) = referenceQuery params.
Proof.
  intro Hfresh.
  assert (Hsnd : snd (referenceQuery params)
                 = with_filter params (rewriteFilter params)).
  { unfold referenceQuery, getQueryForParams. cbn [snd]. now rewrite Hfresh. }
  rewrite Hsnd.
  unfold referenceQuery, getQueryForParams, queryIsFilter.
  cbn [pagination sort target id with_filter].
  rewrite rewriteFilter_again.
  fold (queryIsFilter params). rewrite Hfresh. reflexivity.
Qed.

Lemma convertDataRequestToHTTP_params apiUrl stringify JSON_stringify
    type resource params :
  snd (convertDataRequestToHTTP apiUrl stringify JSON_stringify
         type resource params)
  = if type =? GET_LIST then snd (getQueryForParams params)
    else if type =? GET_MANY_REFERENCE then snd (referenceQuery params)
         else params.
Proof.
  unfold convertDataRequestToHTTP.
  destruct (referenceQuery params) as [rquery rparams].
  destruct (getQueryForParams params) as [query params'].
  destruct (type =? GET_LIST) eqn:E1; [reflexivity|].
  destruct (type =? GET_ONE) eqn:E2.
  - apply String.eqb_eq in E2. subst type. reflexivity.
  - destruct (type =? GET_MANY_REFERENCE); [reflexivity|].
    repeat (match goal with
            | |- context [if (?a =? ?b) then _ else _] => destruct (a =? b)
            end); reflexivity.
Qed.

(** What the reference query leaves of [params] besides the filter. *)
Lemma referenceQuery_frame params :
  let params' := snd (referenceQuery params) in
  pagination params' = pagination params
  /\ sort params' = sort params
  /\ id params' = id params
  /\ ids params' = ids params
  /\ target params' = target params
  /\ data params' = data params.
Proof.
  unfold referenceQuery, getQueryForParams.
  destruct (queryIsFilter params); repeat split; reflexivity.
Qed.

(** X4: building a request for a kind other than list and
    get-many-by-reference leaves [params] as it is.  For those two kinds,
    when the filter has a key or a sort field is given, every filter key
    other than [$sort], [$term] and [q] stays as the caller set it; when
    the filter is empty and no sort field is given, the caller's filter
    becomes the query object: [$limit] and [$page], and for
    get-many-by-reference the target key as well. *)
Theorem X4_filter_rewrite_frame :
  forall apiUrl stringify JSON_stringify type resource params,
    let params' := snd (convertDataRequestToHTTP apiUrl stringify
                          JSON_stringify type resource params) in
    let pages := [("$limit", perPage (pagination params));
                  ("$page", page (pagination params))] in
    (type <> GET_LIST -> type <> GET_MANY_REFERENCE -> params' = params)
    /\ (filter params <> [] \/ field (sort params) <> "" ->
        forall k, ~ In k rewrittenKeys ->
                  get k (filter params') = get k (filter params))
    /\ (filter params = [] -> field (sort params) = "" ->
        (type = GET_LIST -> filter params' = pages)
        /\ (type = GET_MANY_REFERENCE ->
            filter params' = set (target params) (id params) pages)).
Proof.
  intros apiUrl stringify JSON_stringify type resource params params' pages.
  subst params' pages. rewrite convertDataRequestToHTTP_params.
  split; [|split].
  - intros H1 H2. apply String.eqb_neq in H1, H2. now rewrite H1, H2.
  - intros Hfresh k Hk. apply queryIsFilter_false in Hfresh.
    assert (Hrw : get k (rewriteFilter params) = get k (filter params)).
    { apply get_rewriteFilter_other; intro E; subst k; apply Hk;
        unfold rewrittenKeys; simpl; tauto. }
    destruct (type =? GET_LIST).
    + now rewrite (getQueryForParams_fresh params Hfresh).
    + destruct (type =? GET_MANY_REFERENCE); [|reflexivity].
      unfold referenceQuery, getQueryForParams. cbn [snd].
      now rewrite Hfresh.
  - intros Hfilter Hfield. split; intro Ht; subst type.
    + change (GET_LIST =? GET_LIST) with true. cbv iota.
      now rewrite (getQueryForParams_empty params Hfilter Hfield).
    + change (GET_MANY_REFERENCE =? GET_LIST) with false.
      change (GET_MANY_REFERENCE =? GET_MANY_REFERENCE) with true. cbv iota.
      assert (Halias : queryIsFilter params = true)
        by (apply queryIsFilter_true; auto).
      unfold referenceQuery.
      rewrite (getQueryForParams_empty params Hfilter Hfield), Halias.
      reflexivity.
Qed.

(** X5: when the filter has a key or a sort field is given, the rewrite
    of the filter is idempotent: translating a request again with the
    params the first translation left behind gives the same request and
    leaves those params as they are. *)
Theorem X5_translation_repeats :
  forall apiUrl stringify JSON_stringify type resource params,
    filter params <> [] \/ field (sort params) <> "" ->
    let toHTTP := convertDataRequestToHTTP apiUrl stringify JSON_stringify
                    type resource in
    toHTTP (snd (toHTTP params)) = toHTTP params.
Proof.
  intros apiUrl stringify JSON_stringify type resource params Hfresh toHTTP.
  apply queryIsFilter_false in Hfresh.
  subst toHTTP. rewrite convertDataRequestToHTTP_params.
  destruct (type =? GET_LIST) eqn:E1.
  - apply String.eqb_eq in E1. subst type.
    unfold convertDataRequestToHTTP.
    change (GET_LIST =? GET_LIST) with true. cbv iota.
    now rewrite getQueryForParams_again.
  - destruct (type =? GET_MANY_REFERENCE) eqn:E2; [|reflexivity].
    apply String.eqb_eq in E2. subst type.
    unfold convertDataRequestToHTTP.
    change (GET_MANY_REFERENCE =? GET_LIST) with false.
    change (GET_MANY_REFERENCE =? GET_ONE) with false.
    change (GET_MANY_REFERENCE =? GET_MANY_REFERENCE) with true. cbv iota.
    now rewrite referenceQuery_again.
Qed.

(** X6: the reference query is the list query with [params.id] written
    under the key [params.target], once; the write overrides whatever the
    list query holds under that name.  When the filter has a key or a
    sort field is given, [params] is left as the list query build leaves
    it; when the filter is empty and no sort field is given, the
    caller's filter is the reference query itself afterwards. *)
Theorem X6_reference_query :
  forall params,
    (forall k,
        get k (fst (referenceQuery params))
        = if target params =? k then Some (id params)
          else get k (fst (getQueryForParams params)))
    /\ occurrences (target params) (fst (referenceQuery params)) = 1
    /\ (filter params <> [] \/ field (sort params) <> "" ->
        snd (referenceQuery params) = snd (getQueryForParams params))
    /\ (filter params = [] -> field (sort params) = "" ->
        filter (snd (referenceQuery params)) = fst (referenceQuery params)).
Proof.
  intro params. unfold referenceQuery.
  assert (Ht : target (snd (getQueryForParams params)) = target params)
    by reflexivity.
  assert (Hi : id (snd (getQueryForParams params)) = id params)
    by reflexivity.
  destruct (getQueryForParams params) as [query params']. simpl in *.
  rewrite Ht, Hi. split; [|split; [|split]].
  - intro k. destruct (target params =? k) eqn:E.
    + apply String.eqb_eq in E. subst k. apply get_set_same.
    + apply String.eqb_neq in E. now apply get_set_other.
  - apply occurrences_set_same.
  - intro Hfresh. apply queryIsFilter_false in Hfresh. now rewrite Hfresh.
  - intros Hfilter Hfield.
    assert (Halias : queryIsFilter params = true)
      by (apply queryIsFilter_true; auto).
    rewrite Halias. reflexivity.
Qed.

(** ** More on cleaning *)

Lemma get_clean_copy params k :
  isHousekeeping k = false ->
  get k (clean params) = get k (assign1 [] (data params)).
Proof.
  unfold isHousekeeping, housekeeping, clean. simpl.
  intro H. repeat (apply orb_false_elim in H; destruct H as [? H]).
  repeat match goal with
         | E : (k =? _) = false |- _ => apply String.eqb_neq in E
         end.
  rewrite !get_del_other by congruence. reflexivity.
Qed.

(** X7: of a record whose keys are distinct, cleaning removes the five
    housekeeping keys and keeps every other key with its value; [_id] in
    particular stays in the body. *)
Theorem X7_clean_keeps_other_keys :
  forall params,
    NoDup (map fst (data params)) ->
    forall k,
      get k (clean params)
      = if isHousekeeping k then None else get k (data params).
Proof.
  intros params Hnd k.
  destruct (isHousekeeping k) eqn:Hk.
  - apply clean_housekeeping.
    unfold isHousekeeping in Hk. apply existsb_exists in Hk.
    destruct Hk as [k' [Hin E]]. apply String.eqb_eq in E. now subst k'.
  - rewrite get_clean_copy by assumption.
    now rewrite assign1_copy.
Qed.

(** ** More on the response translator *)

Lemma renameId_recordLike d :
  if isRecordLike d then exists y, renameId d = inr y
  else renameId d = inl TypeError.
Proof.
  destruct d as [| |b|z|s|l|o]; simpl; try reflexivity.
  - exists VUndef. reflexivity.
  - unfold renameId. simpl. destruct (truthy (read "_id" o)); eauto.
Qed.

Lemma mapE_renameId_recordLike docs :
  if forallb isRecordLike docs then exists data, mapE renameId docs = inr data
  else mapE renameId docs = inl TypeError.
Proof.
  induction docs as [|d r IH]; simpl.
  - eauto.
  - pose proof (renameId_recordLike d) as Hd.
    destruct (isRecordLike d); simpl.
    + destruct Hd as [y Hy]. rewrite Hy.
      destruct (forallb isRecordLike r).
      * destruct IH as [ys Hys]. rewrite Hys. eauto.
      * now rewrite IH.
    + now rewrite Hd.
Qed.

Lemma getProp_nullish k v :
  not_nullish v = false -> getProp k v = inl TypeError.
Proof.
  destruct v; simpl; try discriminate; reflexivity.
Qed.

Lemma getProp_not_nullish k v :
  not_nullish v = true -> exists x, getProp k v = inr x.
Proof.
  destruct v; simpl; try discriminate; eauto.
Qed.

(** X8: for a list-like kind and a body whose [docs] are records that all
    have a truthy [_id], the result's data is the records in order, each
    with [_id] moved to [id], and its total is [items.total]; [params] is
    not written to. *)
Theorem X8_list_translation_truthy_ids :
  forall response type resource params body records items,
    isListType type = true ->
    json response = VObj body ->
    get "docs" body = Some (VArr (map VObj records)) ->
    get "items" body = Some (VObj items) ->
    Forall (fun o => truthy (read "_id" o) = true) records ->
    convertHTTPResponse response type resource params
    = (inr {| Result.data := VArr (map (fun o => VObj (renamed o)) records);
              Result.total := Some (read "total" items) |}, params).
Proof.
  intros response type resource params body records items
    Hlist Hjson Hdocs Hitems Hids.
  unfold convertHTTPResponse. rewrite Hlist, Hjson.
  unfold getProp, read. rewrite Hdocs, Hitems.
  now rewrite (mapE_renameId_truthy records Hids).
Qed.

(** X9: for a list-like kind the translation returns a result exactly
    when [json.docs] is an array whose elements are all objects or arrays
    and [json.items] is neither [null] nor [undefined]; for any other
    body it throws a [TypeError]; either way [params] is not written to. *)
Theorem X9_list_body_accepted :
  forall response type resource params,
    isListType type = true ->
    if listBodyAccepted (json response)
    then exists result,
        convertHTTPResponse response type resource params
        = (inr result, params)
    else convertHTTPResponse response type resource params
         = (inl TypeError, params).
Proof.
  intros response type resource params Hlist.
  unfold listBodyAccepted, convertHTTPResponse. rewrite Hlist.
  destruct (getProp "docs" (json response)) as [e|[| |b|z|s|docs|o]];
    try reflexivity.
  pose proof (mapE_renameId_recordLike docs) as Hm.
  destruct (forallb isRecordLike docs); simpl.
  - destruct Hm as [data Hdata]. rewrite Hdata.
    destruct (getProp "items" (json response)) as [e|items] eqn:Hitems.
    + destruct (json response); simpl in Hitems; inversion Hitems;
        reflexivity.
    + destruct (not_nullish items) eqn:Hn.
      * destruct (getProp_not_nullish "total" items Hn) as [x Hx].
        rewrite Hx. eauto.
      * now rewrite (getProp_nullish "total" items Hn).
  - now rewrite Hm.
Qed.

(** X10: for a kind that is neither list-like nor create, a body that is
    a record comes back with [id] holding what [_id] held ([undefined]
    when there was no [_id], whatever [id] held before), without [_id],
    and with every other field as it was; a body that is neither an
    object nor an array, as the [undefined] of an empty reply, throws a
    [TypeError]; [params] is not written to. *)
Theorem X10_single_record_translation :
  forall response type resource params,
    isListType type = false ->
    type <> CREATE ->
    (forall o,
        json response = VObj o ->
        exists d,
          convertHTTPResponse response type resource params
          = (inr {| Result.data := VObj d; Result.total := None |}, params)
          /\ get "id" d = Some (read "_id" o)
          /\ get "_id" d = None
          /\ forall k, k <> "id" -> k <> "_id" -> get k d = get k o)
    /\ (isRecordLike (json response) = false ->
        convertHTTPResponse response type resource params
        = (inl TypeError, params)).
Proof.
  intros response type resource params Hlist Hcreate.
  apply String.eqb_neq in Hcreate.
  unfold convertHTTPResponse. rewrite Hlist, Hcreate. split.
  - intros o Ho. rewrite Ho. simpl.
    exists (renamed o). split; [reflexivity|]. apply renamed_spec.
  - destruct (json response); simpl; try discriminate; reflexivity.
Qed.

Lemma convertHTTPResponse_params response type resource params :
  snd (convertHTTPResponse response type resource params)
  = if negb (isListType type) && (type =? CREATE)
    then with_data params (renamed (data params))
    else params.
Proof.
  unfold convertHTTPResponse.
  destruct (isListType type); simpl.
  - destruct (getProp "docs" (json response)) as [e|[| |b|z|s|docs|o]];
      try reflexivity.
    destruct (mapE renameId docs); [reflexivity|].
    destruct (getProp "items" (json response)) as [e|items]; [reflexivity|].
    destruct (getProp "total" items); reflexivity.
  - destruct (type =? CREATE); [reflexivity|].
    destruct (getProp "_id" (json response)) as [e|x]; [reflexivity|].
    destruct (setProp "id" x (json response)); reflexivity.
Qed.

(** ** More on the provider *)

(** The seven translated kinds always give a request. *)
Lemma convertDataRequestToHTTP_single apiUrl stringify JSON_stringify
    type resource params :
  In type singleTypes ->
  exists request,
    fst (convertDataRequestToHTTP apiUrl stringify JSON_stringify
           type resource params) = inr request.
Proof.
  unfold singleTypes. simpl.
  intros [H|[H|[H|[H|[H|[H|[H|[]]]]]]]]; subst type;
    unfold convertDataRequestToHTTP, referenceQuery;
    destruct (getQueryForParams params) as [query params'];
    eexists; reflexivity.
Qed.

(** The run of a kind that is not a bulk kind, step by step. *)
Lemma dataProvider_single_run apiUrl stringify JSON_stringify World httpClient
    type resource params (w : World) :
  type <> UPDATE_MANY -> type <> DELETE_MANY ->
  let run := dataProvider apiUrl stringify JSON_stringify World httpClient
               type resource params w in
  match convertDataRequestToHTTP apiUrl stringify JSON_stringify
          type resource params with
  | (inl e, params1) =>
      outcome_of run = Threw e /\ calls run = [] /\ world run = w
      /\ params_after run = params1
  | (inr request, params1) =>
      let reply := httpClient w (url request) (options request) in
      calls run = [(request, snd reply)]
      /\ world run = fst reply
      /\ match snd reply with
         | Fulfilled t response =>
             let translated :=
               convertHTTPResponse response type resource params1 in
             outcome_of run
             = Returned (match fst translated with
                         | inr result => Fulfilled t result
                         | inl e => Rejected t e
                         end)
             /\ params_after run = snd translated
         | Rejected t e =>
             outcome_of run = Returned (Rejected t e)
             /\ params_after run = params1
         end
  end.
Proof.
  intros Hu Hd run. subst run. unfold dataProvider.
  apply String.eqb_neq in Hu, Hd. rewrite Hu, Hd.
  destruct (convertDataRequestToHTTP apiUrl stringify JSON_stringify
              type resource params) as [[e|request] params1].
  - simpl. auto.
  - cbv zeta.
    destruct (httpClient w (url request) (options request))
      as [w' [t response|t e]]; simpl.
    + destruct (convertHTTPResponse response type resource params1)
        as [r params2]. simpl. auto.
    + auto.
Qed.

Lemma singleTypes_not_bulk type :
  In type singleTypes -> type <> UPDATE_MANY /\ type <> DELETE_MANY.
Proof.
  unfold singleTypes. simpl.
  intros [H|[H|[H|[H|[H|[H|[H|[]]]]]]]]; subst type;
    split; discriminate.
Qed.

(** X11: for a kind that is not a bulk kind, a rejection of the transport
    is the rejection of the returned promise, error and tick unchanged,
    and an error thrown while translating the response rejects the
    returned promise; neither is thrown by the call itself. *)
Theorem X11_errors_reject_the_promise :
  forall apiUrl stringify JSON_stringify World httpClient
         type resource params (w : World),
    type <> UPDATE_MANY -> type <> DELETE_MANY ->
    let run := dataProvider apiUrl stringify JSON_stringify World httpClient
                 type resource params w in
    let params1 := snd (convertDataRequestToHTTP apiUrl stringify
                          JSON_stringify type resource params) in
    (forall request t e,
        In (request, Rejected t e) (calls run) ->
        outcome_of run = Returned (Rejected t e)
        /\ params_after run = params1)
    /\ (forall request t response e,
          In (request, Fulfilled t response) (calls run) ->
          fst (convertHTTPResponse response type resource params1) = inl e ->
          outcome_of run = Returned (Rejected t e)).
Proof.
  intros apiUrl stringify JSON_stringify World httpClient type resource
    params w Hu Hd run params1.
  pose proof (dataProvider_single_run apiUrl stringify JSON_stringify World
                httpClient type resource params w Hu Hd) as H.
  fold run in H. subst params1.
  destruct (convertDataRequestToHTTP apiUrl stringify JSON_stringify
              type resource params) as [[e0|request0] p1].
  - destruct H as [_ [Hc _]]. rewrite Hc. split; intros; contradiction.
  - cbv zeta in H. destruct H as [Hc [_ Hout]]. rewrite Hc. simpl.
    split.
    + intros request t e [Hin|[]]. inversion Hin as [[Hr Hp]].
      subst request0. rewrite Hp in Hout. exact Hout.
    + intros request t response e [Hin|[]] Herr.
      inversion Hin as [[Hr Hp]]. subst request0.
      rewrite Hp in Hout. cbv zeta in Hout.
      destruct Hout as [Hout _]. rewrite Hout, Herr. reflexivity.
Qed.

(** X12: for each of the seven translated kinds, called with params that
    carry every field, the transport is called exactly once: with the url
    and options of the translated request, in the world the call was
    given, and the world the run leaves is the one that call left. *)
Theorem X12_single_kinds_call_once :
  forall apiUrl stringify JSON_stringify World httpClient
         type resource params (w : World),
    In type singleTypes ->
    let run := dataProvider apiUrl stringify JSON_stringify World httpClient
                 type resource params w in
    exists request reply,
      fst (convertDataRequestToHTTP apiUrl stringify JSON_stringify
             type resource params) = inr request
      /\ httpClient w (url request) (options request) = (world run, reply)
      /\ calls run = [(request, reply)].
Proof.
  intros apiUrl stringify JSON_stringify World httpClient type resource
    params w Hin run.
  destruct (singleTypes_not_bulk type Hin) as [Hu Hd].
  pose proof (dataProvider_single_run apiUrl stringify JSON_stringify World
                httpClient type resource params w Hu Hd) as H.
  fold run in H.
  destruct (convertDataRequestToHTTP_single apiUrl stringify JSON_stringify
              type resource params Hin) as [request Hreq].
  destruct (convertDataRequestToHTTP apiUrl stringify JSON_stringify
              type resource params) as [[e0|request0] p1];
    simpl in Hreq; [discriminate|]. inversion Hreq; subst request0.
  cbv zeta in H. destruct H as [Hc [Hw _]].
  exists request, (snd (httpClient w (url request) (options request))).
  split; [reflexivity|]. split; [|exact Hc].
  rewrite Hw. apply surjective_pairing.
Qed.

(** What building a request leaves of [params]. *)
Lemma convertDataRequestToHTTP_frame apiUrl stringify JSON_stringify
    type resource params :
  let params1 := snd (convertDataRequestToHTTP apiUrl stringify
                        JSON_stringify type resource params) in
  (pagination params1 = pagination params
   /\ sort params1 = sort params
   /\ id params1 = id params
   /\ ids params1 = ids params
   /\ target params1 = target params
   /\ data params1 = data params)
  /\ (type <> GET_LIST -> type <> GET_MANY_REFERENCE -> params1 = params).
Proof.
  cbv zeta. rewrite convertDataRequestToHTTP_params.
  destruct (type =? GET_LIST) eqn:E1.
  - split; [repeat split; reflexivity|].
    intros H1 _. apply String.eqb_neq in H1. congruence.
  - destruct (type =? GET_MANY_REFERENCE) eqn:E2.
    + split; [apply referenceQuery_frame|].
      intros _ H2. apply String.eqb_neq in H2. congruence.
    + split; [repeat split; reflexivity|reflexivity].
Qed.

(** X13: what a call may write to in [params]: never to [pagination],
    [sort], [id], [ids] or [target]; to [filter] only for list and
    get-many-by-reference; to [data] only for create. *)
Theorem X13_params_frame :
  forall apiUrl stringify JSON_stringify World httpClient
         type resource params (w : World),
    let params' :=
      params_after (dataProvider apiUrl stringify JSON_stringify World
                      httpClient type resource params w) in
    (pagination params' = pagination params
     /\ sort params' = sort params
     /\ id params' = id params
     /\ ids params' = ids params
     /\ target params' = target params)
    /\ (type <> GET_LIST -> type <> GET_MANY_REFERENCE ->
        filter params' = filter params)
    /\ (type <> CREATE -> data params' = data params).
Proof.
  intros apiUrl stringify JSON_stringify World httpClient type resource
    params w params'. subst params'.
  destruct (String.eqb_spec type UPDATE_MANY) as [Hu|Hu];
    [|destruct (String.eqb_spec type DELETE_MANY) as [Hd|Hd]].
  - rewrite dataProvider_bulk by (now left).
    destruct (fanOut_spec World httpClient
                (map (bulkRequest apiUrl JSON_stringify type resource params)
                   (ids params)) params w) as [_ [_ Hp]].
    rewrite Hp. repeat split; reflexivity.
  - rewrite dataProvider_bulk by (now right).
    destruct (fanOut_spec World httpClient
                (map (bulkRequest apiUrl JSON_stringify type resource params)
                   (ids params)) params w) as [_ [_ Hp]].
    rewrite Hp. repeat split; reflexivity.
  - pose proof (dataProvider_single_run apiUrl stringify JSON_stringify World
                  httpClient type resource params w Hu Hd) as H.
    pose proof (convertDataRequestToHTTP_frame apiUrl stringify
                  JSON_stringify type resource params) as Hframe.
    cbv zeta in Hframe.
    destruct (convertDataRequestToHTTP apiUrl stringify JSON_stringify
                type resource params) as [[e0|request] p1];
      cbn [snd] in Hframe;
      destruct Hframe as [[Hpg [Hso [Hid [Hids [Htg Hda]]]]] Hsame].
    + destruct H as [_ [_ [_ Hp]]]. rewrite Hp.
      split; [repeat split; assumption|]. split.
      * intros H1 H2. now rewrite (Hsame H1 H2).
      * intros _. assumption.
    + cbv zeta in H. destruct H as [_ [_ Hout]].
      assert (Hfin : params_after
                       (dataProvider apiUrl stringify JSON_stringify World
                          httpClient type resource params w) = p1
                     \/ type = CREATE
                        /\ params_after
                             (dataProvider apiUrl stringify JSON_stringify
                                World httpClient type resource params w)
                           = with_data p1 (renamed (data p1))).
      { destruct (snd (httpClient w (url request) (options request)))
          as [t response|t e].
        - destruct Hout as [_ Hp]. rewrite Hp.
          rewrite convertHTTPResponse_params.
          destruct (negb (isListType type) && (type =? CREATE)) eqn:Eb;
            [|now left].
          right. apply andb_prop in Eb. destruct Eb as [_ Ec].
          apply String.eqb_eq in Ec. auto.
        - destruct Hout as [_ Hp]. now left. }
      destruct Hfin as [Hfin|[Hc Hfin]]; rewrite Hfin.
      * split; [repeat split; assumption|]. split.
        -- intros H1 H2. now rewrite (Hsame H1 H2).
        -- intros _. assumption.
      * cbn [pagination sort id ids target filter data with_data].
        split; [repeat split; assumption|]. split.
        -- intros H1 H2. now rewrite (Hsame H1 H2).
        -- intro Hne. now contradiction Hne.
Qed.

(** X14: get-many with no ids still calls the transport, once, with the
    URL that ends in an empty query. *)
Theorem X14_get_many_without_ids :
  forall apiUrl stringify JSON_stringify World httpClient
         resource params (w : World),
    ids params = [] ->
    exists reply,
      calls (dataProvider apiUrl stringify JSON_stringify World httpClient
               GET_MANY resource params w)
      = [({| url := apiUrl ++ "/" ++ resource ++ "?";
             options := {| method := None; body := None |} |}, reply)].
Proof.
  intros apiUrl stringify JSON_stringify World httpClient resource params w
    Hids.
  assert (Hu : GET_MANY <> UPDATE_MANY) by discriminate.
  assert (Hd : GET_MANY <> DELETE_MANY) by discriminate.
  pose proof (dataProvider_single_run apiUrl stringify JSON_stringify World
                httpClient GET_MANY resource params w Hu Hd) as H.
  unfold convertDataRequestToHTTP in H.
  change (GET_MANY =? GET_LIST) with false in H.
  change (GET_MANY =? GET_ONE) with false in H.
  change (GET_MANY =? GET_MANY_REFERENCE) with false in H.
  change (GET_MANY =? UPDATE) with false in H.
  change (GET_MANY =? CREATE) with false in H.
  change (GET_MANY =? DELETE) with false in H.
  change (GET_MANY =? GET_MANY) with true in H.
  cbv iota beta zeta in H. rewrite Hids in H.
  destruct H as [Hc _]. eexists. exact Hc.
Qed.

(** X15: a record the provider returned (the data of a single-record
    result, or a record of a list result), sent back as the data of an
    update, goes out in a body with neither [id] nor [_id]: the
    identifier travels in the URL only. *)
Theorem X15_returned_record_sent_back :
  forall apiUrl stringify JSON_stringify
         response type resource params1 params1' result o params2,
    convertHTTPResponse response type resource params1
    = (inr result, params1') ->
    (isListType type = false /\ Result.data result = VObj o
     \/ isListType type = true
        /\ exists l, Result.data result = VArr l /\ In (VObj o) l) ->
    exists request,
      fst (convertDataRequestToHTTP apiUrl stringify JSON_stringify
             UPDATE resource (with_data params2 o)) = inr request
      /\ url request
         = apiUrl ++ "/" ++ resource ++ "/" ++ toString (id params2)
      /\ body (options request)
         = Some (JSON_stringify (VObj (clean (with_data params2 o))))
      /\ get "id" (clean (with_data params2 o)) = None
      /\ get "_id" (clean (with_data params2 o)) = None.
Proof.
  intros apiUrl stringify JSON_stringify response type resource params1
    params1' result o params2 Hconv Hrec.
  assert (Ho : exposesId o).
  { pose proof (convertHTTPResponse_records _ _ _ _ _ _ Hconv) as Hok.
    unfold returned_ok in Hok.
    destruct Hrec as [[Hl Hd]|[Hl [l [Hd Hin]]]]; rewrite Hl in Hok.
    - now apply Hok.
    - destruct Hok as [l' [Hd' Hall]]. rewrite Hd in Hd'.
      inversion Hd'; subst l'. now apply Hall. }
  eexists. split; [reflexivity|]. split; [reflexivity|].
  split; [reflexivity|]. split.
  - apply clean_housekeeping. unfold housekeeping. simpl. auto.
  - unfold clean. cbn [data with_data].
    rewrite !get_del_other by discriminate.
    rewrite get_assign1_absent by apply Ho. reflexivity.
Qed.

(** X17: the filter the caller passed in, after the query is built.  With
    a sort field it holds [$sort], the field name as given (here [id] is
    not replaced by [_id]) with [-] in front for [DESC]; without one its
    [$sort] is untouched.  A [q] that is neither [null] nor [undefined]
    is gone and its value is under [$term]; otherwise [q] and [$term] are
    untouched. *)
Theorem X17_filter_after_query_build :
  forall params,
    let filter' := filter (snd (getQueryForParams params)) in
    (field (sort params) <> "" ->
     get "$sort" filter'
     = Some (VStr (sortPrefix (order (sort params)) ++ field (sort params))))
    /\ (field (sort params) = "" ->
        get "$sort" filter' = get "$sort" (filter params))
    /\ (forall v,
          get "q" (filter params) = Some v -> not_nullish v = true ->
          get "q" filter' = None /\ get "$term" filter' = Some v)
    /\ (not_nullish (read "q" (filter params)) = false ->
        get "q" filter' = get "q" (filter params)
        /\ get "$term" filter' = get "$term" (filter params)).
Proof.
  intros params filter'. subst filter'.
  assert (Hafter : filter (snd (getQueryForParams params))
                   = if queryIsFilter params
                     then fst (getQueryForParams params)
                     else rewriteFilter params) by reflexivity.
  rewrite Hafter. clear Hafter.
  destruct (queryIsFilter params) eqn:Halias.
  - (* the filter was empty and is the query now *)
    apply queryIsFilter_true in Halias. destruct Halias as [Hfilter Hfield].
    rewrite (getQueryForParams_empty params Hfilter Hfield), Hfilter.
    cbn [fst]. split; [|split; [|split]].
    + intro Hne. now contradiction Hne.
    + intros _. reflexivity.
    + intros v Hq. discriminate Hq.
    + intros _. split; reflexivity.
  - split; [|split; [|split]].
    + intro Hf. apply String.eqb_neq in Hf.
      unfold rewriteFilter. cbv zeta.
      rewrite Hf. cbn [negb].
      destruct (not_nullish _).
      * rewrite get_del_other, get_set_other by discriminate.
        apply get_set_same.
      * apply get_set_same.
    + intro Hf.
      unfold rewriteFilter. cbv zeta.
      rewrite Hf. change (negb ("" =? "")) with false. cbv iota.
      destruct (not_nullish _); auto.
      now rewrite get_del_other, get_set_other by discriminate.
    + intros v Hq Hv.
      destruct (rewriteFilter_renamed params v Hq Hv) as [H1 [H2 _]]. auto.
    + intro Hn.
      unfold rewriteFilter. cbv zeta.
      rewrite read_q_after_sort, Hn.
      destruct (negb (field (sort params) =? "")); auto.
      now rewrite !get_set_other by discriminate.
Qed.

(** ** The further properties at work *)

Lemma X2_filter_key_passed_as_is_witness :
  (hasDot "name" = false
   /\ ~ In "name" ["q"; "$term"; "$sort"; "$limit"; "$page"]
   /\ occurrences "name" (filter Demo.filteredParams) <= 1)
  /\ get "name" (fst (getQueryForParams Demo.filteredParams))
     = Some (VStr "john")
  /\ get "author" (fst (getQueryForParams Demo.filteredParams)) = None.
Proof.
  assert (H1 : hasDot "name" = false) by reflexivity.
  assert (H2 : ~ In "name" ["q"; "$term"; "$sort"; "$limit"; "$page"]).
  { simpl. intros [E|[E|[E|[E|[E|[]]]]]]; discriminate E. }
  assert (H3 : occurrences "name" (filter Demo.filteredParams) <= 1)
    by (vm_compute; lia).
  assert (H4 : ~ In "author" ["q"; "$term"; "$sort"; "$limit"; "$page"]).
  { simpl. intros [E|[E|[E|[E|[E|[]]]]]]; discriminate E. }
  assert (H5 : occurrences "author" (filter Demo.filteredParams) <= 1)
    by (vm_compute; lia).
  split; [repeat split; assumption|]. split.
  - exact (X2_filter_key_passed_as_is Demo.filteredParams "name" H1 H2 H3).
  - exact (X2_filter_key_passed_as_is Demo.filteredParams "author"
             eq_refl H4 H5).
Defined.

Lemma X3_no_sort_field_witness :
  (field (sort Demo.filteredParams) = ""
   /\ occurrences "$sort" (filter Demo.filteredParams) <= 1)
  /\ get "$sort" (fst (getQueryForParams Demo.filteredParams))
     = Some (VStr "-views").
Proof.
  assert (H1 : field (sort Demo.filteredParams) = "") by reflexivity.
  assert (H2 : occurrences "$sort" (filter Demo.filteredParams) <= 1)
    by (vm_compute; lia).
  split; [split; assumption|].
  exact (X3_no_sort_field Demo.filteredParams H1 H2).
Defined.

Lemma X4_filter_rewrite_frame_witness :
  ((GET_ONE <> GET_LIST /\ GET_ONE <> GET_MANY_REFERENCE)
   /\ snd (convertDataRequestToHTTP "base" Demo.stringify
             Demo.JSON_stringify GET_ONE "posts" Demo.listParams)
      = Demo.listParams)
  /\ (((filter Demo.filteredParams <> []
        \/ field (sort Demo.filteredParams) <> "")
       /\ ~ In "name" rewrittenKeys)
      /\ get "name"
           (filter (snd (convertDataRequestToHTTP "base" Demo.stringify
                           Demo.JSON_stringify GET_LIST "posts"
                           Demo.filteredParams)))
         = Some (VStr "john"))
  /\ ((filter (Demo.referenceParams "post_id") = []
       /\ field (sort (Demo.referenceParams "post_id")) = "")
      /\ filter (snd (convertDataRequestToHTTP "base" Demo.stringify
                        Demo.JSON_stringify GET_LIST "comments"
                        (Demo.referenceParams "post_id")))
         = [("$limit", VNum 10); ("$page", VNum 1)]
      /\ filter (snd (convertDataRequestToHTTP "base" Demo.stringify
                        Demo.JSON_stringify GET_MANY_REFERENCE "comments"
                        (Demo.referenceParams "post_id")))
         = [("$limit", VNum 10); ("$page", VNum 1); ("post_id", VNum 7)]).
Proof.
  assert (H1 : ~ In "name" rewrittenKeys).
  { unfold rewrittenKeys. simpl. intros [E|[E|[E|[]]]]; discriminate E. }
  assert (H2 : GET_ONE <> GET_LIST) by discriminate.
  assert (H3 : GET_ONE <> GET_MANY_REFERENCE) by discriminate.
  assert (H4 : filter Demo.filteredParams <> []
               \/ field (sort Demo.filteredParams) <> "")
    by (left; discriminate).
  assert (H5 : filter (Demo.referenceParams "post_id") = []) by reflexivity.
  assert (H6 : field (sort (Demo.referenceParams "post_id")) = "")
    by reflexivity.
  split; [|split].
  - split; [split; assumption|].
    exact (proj1 (X4_filter_rewrite_frame "base" Demo.stringify
                    Demo.JSON_stringify GET_ONE "posts" Demo.listParams)
             H2 H3).
  - split; [split; assumption|].
    exact (proj1 (proj2 (X4_filter_rewrite_frame "base" Demo.stringify
                           Demo.JSON_stringify GET_LIST "posts"
                           Demo.filteredParams)) H4 "name" H1).
  - split; [split; assumption|]. split.
    + exact (proj1 (proj2 (proj2 (X4_filter_rewrite_frame "base"
                                    Demo.stringify Demo.JSON_stringify
                                    GET_LIST "comments"
                                    (Demo.referenceParams "post_id")))
                      H5 H6) eq_refl).
    + exact (proj2 (proj2 (proj2 (X4_filter_rewrite_frame "base"
                                    Demo.stringify Demo.JSON_stringify
                                    GET_MANY_REFERENCE "comments"
                                    (Demo.referenceParams "post_id")))
                      H5 H6) eq_refl).
Defined.

Lemma X5_translation_repeats_witness :
  (filter Demo.listParams <> [] \/ field (sort Demo.listParams) <> "")
  /\ convertDataRequestToHTTP "base" Demo.stringify Demo.JSON_stringify
       GET_LIST "posts"
       (snd (convertDataRequestToHTTP "base" Demo.stringify
               Demo.JSON_stringify GET_LIST "posts" Demo.listParams))
     = convertDataRequestToHTTP "base" Demo.stringify Demo.JSON_stringify
         GET_LIST "posts" Demo.listParams.
Proof.
  assert (H : filter Demo.listParams <> []
              \/ field (sort Demo.listParams) <> "")
    by (right; discriminate).
  split; [exact H|].
  exact (X5_translation_repeats "base" Demo.stringify Demo.JSON_stringify
           GET_LIST "posts" Demo.listParams H).
Defined.

Lemma X6_reference_query_witness :
  ((filter Demo.filteredParams <> []
    \/ field (sort Demo.filteredParams) <> "")
   /\ snd (referenceQuery Demo.filteredParams)
      = snd (getQueryForParams Demo.filteredParams))
  /\ ((filter (Demo.referenceParams "post_id") = []
       /\ field (sort (Demo.referenceParams "post_id")) = "")
      /\ filter (snd (referenceQuery (Demo.referenceParams "post_id")))
         = fst (referenceQuery (Demo.referenceParams "post_id"))).
Proof.
  assert (H1 : filter Demo.filteredParams <> []
               \/ field (sort Demo.filteredParams) <> "")
    by (left; discriminate).
  assert (H2 : filter (Demo.referenceParams "post_id") = []) by reflexivity.
  assert (H3 : field (sort (Demo.referenceParams "post_id")) = "")
    by reflexivity.
  split.
  - split; [exact H1|].
    exact (proj1 (proj2 (proj2 (X6_reference_query Demo.filteredParams)))
             H1).
  - split; [split; assumption|].
    exact (proj2 (proj2 (proj2 (X6_reference_query
                                  (Demo.referenceParams "post_id"))))
             H2 H3).
Defined.

Lemma X7_clean_keeps_other_keys_witness :
  NoDup (map fst (data Demo.updateParams))
  /\ get "name" (clean Demo.updateParams) = Some (VStr "x")
  /\ get "_id" (clean Demo.updateParams) = Some (VStr "1")
  /\ get "id" (clean Demo.updateParams) = None.
Proof.
  assert (H : NoDup (map fst (data Demo.updateParams))).
  { simpl. repeat constructor; simpl;
      intuition (try discriminate). }
  split; [exact H|]. split; [|split].
  - exact (X7_clean_keeps_other_keys Demo.updateParams H "name").
  - exact (X7_clean_keeps_other_keys Demo.updateParams H "_id").
  - exact (X7_clean_keeps_other_keys Demo.updateParams H "id").
Defined.

Lemma X8_list_translation_truthy_ids_witness :
  (isListType GET_LIST = true
   /\ get "docs" Demo.listBody
      = Some (VArr (map VObj [[("_id", VStr "1"); ("title", VStr "A")]]))
   /\ get "items" Demo.listBody = Some (VObj [("total", VNum 1)])
   /\ Forall (fun o => truthy (read "_id" o) = true)
        [[("_id", VStr "1"); ("title", VStr "A")]])
  /\ convertHTTPResponse {| json := VObj Demo.listBody |} GET_LIST "posts"
       Demo.listParams
     = (inr {| Result.data := VArr [VObj [("title", VStr "A");
                                          ("id", VStr "1")]];
               Result.total := Some (VNum 1) |}, Demo.listParams).
Proof.
  assert (H1 : isListType GET_LIST = true) by reflexivity.
  assert (H2 : get "docs" Demo.listBody
               = Some (VArr (map VObj [[("_id", VStr "1");
                                        ("title", VStr "A")]])))
    by reflexivity.
  assert (H3 : get "items" Demo.listBody = Some (VObj [("total", VNum 1)]))
    by reflexivity.
  assert (H4 : Forall (fun o => truthy (read "_id" o) = true)
                 [[("_id", VStr "1"); ("title", VStr "A")]])
    by (repeat constructor).
  split; [repeat split; assumption|].
  exact (X8_list_translation_truthy_ids {| json := VObj Demo.listBody |}
           GET_LIST "posts" Demo.listParams Demo.listBody
           [[("_id", VStr "1"); ("title", VStr "A")]] [("total", VNum 1)]
           H1 eq_refl H2 H3 H4).
Defined.

Lemma X9_list_body_accepted_witness :
  isListType GET_MANY = true
  /\ convertHTTPResponse {| json := VObj [("docs", VArr [])] |}
       GET_MANY "posts" Demo.noParams
     = (inl TypeError, Demo.noParams)
  /\ exists result,
       convertHTTPResponse {| json := VObj Demo.listBody |}
         GET_MANY "posts" Demo.noParams
       = (inr result, Demo.noParams).
Proof.
  assert (H : isListType GET_MANY = true) by reflexivity.
  split; [exact H|]. split.
  - exact (X9_list_body_accepted {| json := VObj [("docs", VArr [])] |}
             GET_MANY "posts" Demo.noParams H).
  - exact (X9_list_body_accepted {| json := VObj Demo.listBody |}
             GET_MANY "posts" Demo.noParams H).
Defined.

Lemma X10_single_record_translation_witness :
  (isListType DELETE = false /\ DELETE <> CREATE
   /\ isRecordLike VUndef = false)
  /\ convertHTTPResponse {| json := VUndef |} DELETE "posts" Demo.noParams
     = (inl TypeError, Demo.noParams)
  /\ exists d,
       convertHTTPResponse Demo.record1 DELETE "posts" Demo.noParams
       = (inr {| Result.data := VObj d; Result.total := None |},
          Demo.noParams)
       /\ get "id" d = Some (VStr "1")
       /\ get "_id" d = None.
Proof.
  assert (H1 : isListType DELETE = false) by reflexivity.
  assert (H2 : DELETE <> CREATE) by discriminate.
  assert (H3 : isRecordLike VUndef = false) by reflexivity.
  split; [repeat split; assumption|]. split.
  - exact (proj2 (X10_single_record_translation {| json := VUndef |}
                    DELETE "posts" Demo.noParams H1 H2) H3).
  - destruct (proj1 (X10_single_record_translation Demo.record1
                       DELETE "posts" Demo.noParams H1 H2)
                [("_id", VStr "1"); ("title", VStr "A")] eq_refl)
      as [d [Hc [Hid [Hnone _]]]].
    exists d. repeat split; assumption.
Defined.

Lemma X11_errors_reject_the_promise_witness :
  (DELETE <> UPDATE_MANY /\ DELETE <> DELETE_MANY)
  /\ outcome_of (Demo.provider DELETE "posts" Demo.updateParams
                   [Rejected 3 (Reason (VStr "gone"))])
     = Returned (Rejected 3 (Reason (VStr "gone")))
  /\ outcome_of (Demo.provider DELETE "posts" Demo.updateParams
                   [Fulfilled 3 {| json := VUndef |}])
     = Returned (Rejected 3 TypeError).
Proof.
  assert (H1 : DELETE <> UPDATE_MANY) by discriminate.
  assert (H2 : DELETE <> DELETE_MANY) by discriminate.
  split; [split; assumption|]. split.
  - refine (proj1 (proj1 (X11_errors_reject_the_promise "base"
                            Demo.stringify Demo.JSON_stringify
                            (list (promise Response)) Demo.httpClient
                            DELETE "posts" Demo.updateParams
                            [Rejected 3 (Reason (VStr "gone"))] H1 H2)
                     {| url := "base/posts/1";
                        options := {| method := Some "DELETE";
                                      body := None |} |}
                     3 (Reason (VStr "gone")) _)).
    left. reflexivity.
  - refine (proj2 (X11_errors_reject_the_promise "base"
                     Demo.stringify Demo.JSON_stringify
                     (list (promise Response)) Demo.httpClient
                     DELETE "posts" Demo.updateParams
                     [Fulfilled 3 {| json := VUndef |}] H1 H2)
              {| url := "base/posts/1";
                 options := {| method := Some "DELETE"; body := None |} |}
              3 {| json := VUndef |} TypeError _ _).
    + left. reflexivity.
    + reflexivity.
Defined.

Lemma X12_single_kinds_call_once_witness :
  In GET_ONE singleTypes
  /\ exists request reply,
       fst (convertDataRequestToHTTP "base" Demo.stringify
              Demo.JSON_stringify GET_ONE "posts" Demo.updateParams)
       = inr request
       /\ Demo.httpClient [Fulfilled 1 Demo.record1]
            (url request) (options request)
          = (world (Demo.provider GET_ONE "posts" Demo.updateParams
                      [Fulfilled 1 Demo.record1]), reply)
       /\ calls (Demo.provider GET_ONE "posts" Demo.updateParams
                   [Fulfilled 1 Demo.record1])
          = [(request, reply)].
Proof.
  assert (H : In GET_ONE singleTypes)
    by (unfold singleTypes; simpl; tauto).
  split; [exact H|].
  exact (X12_single_kinds_call_once "base" Demo.stringify Demo.JSON_stringify
           (list (promise Response)) Demo.httpClient
           GET_ONE "posts" Demo.updateParams [Fulfilled 1 Demo.record1] H).
Defined.

Lemma X13_params_frame_witness :
  (UPDATE <> GET_LIST /\ UPDATE <> GET_MANY_REFERENCE /\ UPDATE <> CREATE)
  /\ filter (params_after (Demo.provider UPDATE "posts" Demo.updateParams
                             [Fulfilled 1 Demo.record1]))
     = filter Demo.updateParams
  /\ data (params_after (Demo.provider UPDATE "posts" Demo.updateParams
                           [Fulfilled 1 Demo.record1]))
     = data Demo.updateParams.
Proof.
  assert (H1 : UPDATE <> GET_LIST) by discriminate.
  assert (H2 : UPDATE <> GET_MANY_REFERENCE) by discriminate.
  assert (H3 : UPDATE <> CREATE) by discriminate.
  split; [repeat split; assumption|].
  destruct (X13_params_frame "base" Demo.stringify Demo.JSON_stringify
              (list (promise Response)) Demo.httpClient
              UPDATE "posts" Demo.updateParams [Fulfilled 1 Demo.record1])
    as [_ [Hf Hd]].
  split; [exact (Hf H1 H2) | exact (Hd H3)].
Defined.

Lemma X14_get_many_without_ids_witness :
  ids Demo.noParams = []
  /\ exists reply,
       calls (Demo.provider GET_MANY "posts" Demo.noParams
                [Fulfilled 1 {| json := VObj Demo.listBody |}])
       = [({| url := "base/posts?";
              options := {| method := None; body := None |} |}, reply)].
Proof.
  assert (H : ids Demo.noParams = []) by reflexivity.
  split; [exact H|].
  exact (X14_get_many_without_ids "base" Demo.stringify Demo.JSON_stringify
           (list (promise Response)) Demo.httpClient
           "posts" Demo.noParams
           [Fulfilled 1 {| json := VObj Demo.listBody |}] H).
Defined.

Lemma X15_returned_record_sent_back_witness :
  (convertHTTPResponse Demo.record1 GET_ONE "posts" Demo.noParams
   = (inr {| Result.data := VObj [("title", VStr "A"); ("id", VStr "1")];
             Result.total := None |}, Demo.noParams)
   /\ isListType GET_ONE = false)
  /\ exists request,
       fst (convertDataRequestToHTTP "base" Demo.stringify
              Demo.JSON_stringify UPDATE "posts"
              (with_data Demo.updateParams
                 [("title", VStr "A"); ("id", VStr "1")]))
       = inr request
       /\ url request = "base/posts/1"
       /\ body (options request)
          = Some (Demo.JSON_stringify (VObj [("title", VStr "A")])).
Proof.
  assert (H1 : convertHTTPResponse Demo.record1 GET_ONE "posts" Demo.noParams
               = (inr {| Result.data := VObj [("title", VStr "A");
                                              ("id", VStr "1")];
                         Result.total := None |}, Demo.noParams))
    by reflexivity.
  assert (H2 : isListType GET_ONE = false) by reflexivity.
  split; [split; assumption|].
  destruct (X15_returned_record_sent_back "base" Demo.stringify
              Demo.JSON_stringify Demo.record1 GET_ONE "posts" Demo.noParams
              Demo.noParams _ [("title", VStr "A"); ("id", VStr "1")]
              Demo.updateParams H1 (or_introl (conj H2 eq_refl)))
    as [request [Hr [Hu [Hb _]]]].
  exists request. split; [exact Hr|]. split; [exact Hu | exact Hb].
Defined.

Lemma X17_filter_after_query_build_witness :
  (field (sort Demo.idSortParams) <> ""
   /\ get "q" (filter (Demo.searchParams (VStr "x"))) = Some (VStr "x")
   /\ not_nullish (VStr "x") = true)
  /\ get "$sort" (filter (snd (getQueryForParams Demo.idSortParams)))
     = Some (VStr "id")
  /\ get "q" (filter (snd (getQueryForParams
                             (Demo.searchParams (VStr "x"))))) = None
  /\ get "$term" (filter (snd (getQueryForParams
                                 (Demo.searchParams (VStr "x")))))
     = Some (VStr "x").
Proof.
  assert (H1 : field (sort Demo.idSortParams) <> "") by discriminate.
  assert (H2 : get "q" (filter (Demo.searchParams (VStr "x")))
               = Some (VStr "x")) by reflexivity.
  assert (H3 : not_nullish (VStr "x") = true) by reflexivity.
  split; [repeat split; assumption|]. split.
  - exact (proj1 (X17_filter_after_query_build Demo.idSortParams) H1).
  - exact (proj1 (proj2 (proj2 (X17_filter_after_query_build
                                  (Demo.searchParams (VStr "x")))))
             (VStr "x") H2 H3).
Defined.
